(** * The local document store of the memory server

    A shallow embedding of the document endpoints of the local server
    ([getAllMemories], [saveMemory] and the handlers registered under
    [/v3/documents]) and the properties of the store that the
    specification states about them.

    Conventions of the embedding.
    - JavaScript values that travel through [JSON.parse] and
      [JSON.stringify] are the type [value]; [undefined] is the [None] of
      an [option value].  Numbers are mathematical integers, which is
      exact for the integer-valued doubles below [2^53] that page
      arithmetic and array lengths produce.
    - A string is a [string]; one character stands for one UTF-16 code
      unit, the unit of [startsWith], [endsWith] and [slice].
    - The directory [DATA_DIR] is a finite map from file names to file
      texts; [path.join(DATA_DIR, name)] addresses the entry [name]
      (names are taken not to contain path separators).
    - A thrown exception is the [Throw] of the [completion] monad.
    - The results of [crypto.randomUUID()] and of
      [new Date().toISOString()] are arguments of the handlers. *)

From Stdlib Require Import ZArith String Ascii List Sorted Permutation Lia.
From Stdlib.Strings Require Import Byte.
From stdpp Require Import gmap strings list fin_maps pretty sorting.

Set Warnings "-register-all".

(** ** JSON values *)

Inductive value :=
| JNull
| JBool (b : bool)
| JNum (n : Z)
| JStr (s : string)
| JArr (l : list value)
| JObj (m : gmap string value).

#[global] Instance value_eq_dec : EqDecision value.
Proof.
  refine (fix go (x y : value) : Decision (x = y) :=
    match x, y with
    | JNull, JNull => left _
    | JBool a, JBool b => cast_if (decide (a = b))
    | JNum a, JNum b => cast_if (decide (a = b))
    | JStr a, JStr b => cast_if (decide (a = b))
    | JArr a, JArr b => cast_if (@decide (a = b) (@list_eq_dec _ go a b))
    | JObj a, JObj b => cast_if (@decide (a = b) (@gmap_eq_dec _ _ _ _ go a b))
    | _, _ => right _
    end); abstract congruence.
Defined.

(** ** Completions: a normal result or a thrown exception *)

Inductive completion (A : Type) :=
| Normal (a : A)
| Throw.
Arguments Normal {A} a.
Arguments Throw {A}.

#[global] Instance completion_ret : MRet completion := @Normal.
#[global] Instance completion_bind : MBind completion :=
  λ A B f c, match c with Normal a => f a | Throw => Throw end.

#[global] Instance completion_eq_dec {A} `{EqDecision A} : EqDecision (completion A).
Proof. solve_decision. Defined.

(** [try { ... } catch (e) { handler }] *)
Definition try_catch {A} (body : completion A) (handler : A) : A :=
  match body with Normal a => a | Throw => handler end.

(** ** Strings *)

(** [s.startsWith(p)] *)
Definition startsWith (s p : string) : bool := String.prefix p s.

(** [s.endsWith(p)] *)
Definition endsWith (s p : string) : bool :=
  let n := String.length s in
  let k := String.length p in
  if decide (k ≤ n) then bool_decide (substring (n - k) k s = p) else false.

(** The index clamping of [slice]: a negative index counts from the end. *)
Definition clamp_index (len i : Z) : Z :=
  if (i <? 0)%Z then Z.max (len + i) 0 else Z.min i len.

(** [s.slice(b, e)] on a string *)
Definition string_slice (s : string) (b e : Z) : string :=
  let len := Z.of_nat (String.length s) in
  let from := clamp_index len b in
  let to := clamp_index len e in
  substring (Z.to_nat from) (Z.to_nat (to - from)) s.

(** [a.slice(b, e)] on an array *)
Definition array_slice {A} (a : list A) (b e : Z) : list A :=
  let len := Z.of_nat (length a) in
  let from := clamp_index len b in
  let to := clamp_index len e in
  take (Z.to_nat (to - from)) (drop (Z.to_nat from) a).

(** ** Properties, truthiness, spread, string conversion *)

(** [v.k] on a value other than [null], for a key [k] that names no
    built-in property of strings, arrays, numbers or booleans (the code
    reads [content], [containerTags], [metadata], [createdAt] and [id]):
    only an object can hold it. *)
Definition field (k : string) (v : value) : option value :=
  match v with
  | JObj m => m !! k
  | _ => None
  end.

(** [v.k], which throws a TypeError on [null]. *)
Definition get (v : value) (k : string) : completion (option value) :=
  match v with
  | JNull => Throw
  | _ => Normal (field k v)
  end.

(** ToBoolean *)
Definition truthy (v : value) : bool :=
  match v with
  | JNull => false
  | JBool b => b
  | JNum n => negb (n =? 0)%Z
  | JStr s => negb (String.eqb s EmptyString)
  | JArr _ | JObj _ => true
  end.

(** [x || d] *)
Definition or_default (x : option value) (d : value) : value :=
  match x with
  | Some v => if truthy v then v else d
  | None => d
  end.

Definition indexed (l : list value) : gmap string value :=
  list_to_map (imap (λ i x, (pretty i, x)) l).

Definition code_units (s : string) : list value :=
  (λ c, JStr (String c EmptyString)) <$> list_ascii_of_string s.

(** The own enumerable properties that [{...x}] copies: the entries of
    an object, the indices of an array or of a string, nothing for
    [undefined], [null], a number or a boolean. *)
Definition own_props (x : option value) : gmap string value :=
  match x with
  | Some (JObj m) => m
  | Some (JArr l) => indexed l
  | Some (JStr s) => indexed (code_units s)
  | _ => ∅
  end.

(** ToString of a parsed value.  A number is written in decimal
    digits, as the runtime writes an integer of magnitude below
    [10^21] (it writes the larger ones in exponent form, which this
    embedding does not cover).  An array is joined with commas, [null]
    elements giving the empty string; an object gives
    ["[object Object]"], unless it has an own [toString] entry, which
    is not callable and leaves no primitive to convert: a TypeError. *)
Fixpoint to_string (v : value) : completion string :=
  match v with
  | JNull => Normal "null"
  | JBool b => Normal (if b then "true" else "false")
  | JNum n => Normal (pretty n)
  | JStr s => Normal s
  | JArr l =>
      (fix join (l : list value) : completion string :=
         match l with
         | [] => Normal EmptyString
         | x :: l' =>
             match (match x with JNull => Normal EmptyString | _ => to_string x end) with
             | Normal s =>
                 match l' with
                 | [] => Normal s
                 | _ => match join l' with
                        | Normal r => Normal (s +:+ "," +:+ r)
                        | Throw => Throw
                        end
                 end
             | Throw => Throw
             end
         end) l
  | JObj m => if decide (is_Some (m !! "toString")) then Throw
              else Normal "[object Object]"
  end.

(** The string of a template literal [`${x}`]. *)
Definition template (x : option value) : completion string :=
  match x with
  | None => Normal "undefined"
  | Some v => to_string v
  end.

(** [a.includes(t)] compares with SameValueZero: primitives by value,
    arrays and objects by identity, and two values that come out of two
    calls of [JSON.parse] never share an identity. *)
Definition same_value_zero (a b : value) : bool :=
  match a, b with
  | JNull, JNull => true
  | JBool x, JBool y => bool_decide (x = y)
  | JNum x, JNum y => bool_decide (x = y)
  | JStr x, JStr y => bool_decide (x = y)
  | _, _ => false
  end.

Definition includes (a : list value) (t : value) : bool :=
  existsb (λ x, same_value_zero x t) a.

(** ** The data directory *)

(** The text of a file, kept as what [JSON.parse] makes of it: the
    value it denotes, or a text that does not parse. [JSON.stringify]
    of a value writes a text that parses back to it. *)
Inductive file_text :=
| Serialized (v : value)
| Malformed (raw : string).

Definition JSON_parse (t : file_text) : completion value :=
  match t with
  | Serialized v => Normal v
  | Malformed _ => Throw
  end.

Definition JSON_stringify (v : value) : file_text := Serialized v.

(** [fs.readFile]: rejects when there is no such file. *)
Definition readFile (d : gmap string file_text) (name : string) : completion file_text :=
  match d !! name with
  | Some t => Normal t
  | None => Throw
  end.

(** [fs.readdir]: the names in the directory, in its enumeration order. *)
Definition readdir (d : gmap string file_text) : list string :=
  (map_to_list d).*1.

(** [fs.unlink]: rejects when there is no such file. *)
Definition unlink (d : gmap string file_text) (name : string) : completion (gmap string file_text) :=
  match d !! name with
  | Some _ => Normal (delete name d)
  | None => Throw
  end.

(** [fs.writeFile]: creates the file or replaces its text. *)
Definition writeFile (d : gmap string file_text) (name : string) (t : file_text) : gmap string file_text :=
  <[name := t]> d.

(** [saveMemory] *)
Definition saveMemory (d : gmap string file_text) (memory : value) : completion (gmap string file_text * value) :=
  id ← get memory "id";
  stem ← template id;
  mret (writeFile d (stem +:+ ".json") (JSON_stringify memory), memory).

(** ** Responses *)

(** [c.json(body, status)], or the 500 of an exception that no handler
    catches. *)
Inductive response :=
| Json (status : Z) (body : value)
| ServerError.

Definition not_found : response :=
  Json 404 (JObj {[ "error" := JStr "Document not found" ]}).

(** ** POST /v3/documents *)

Definition new_memory (id now content : string) (containerTags metadata : option value) : value :=
  let type := if startsWith content "http" then "link" else "note" in
  JObj (list_to_map
    [ ("id", JStr id);
      ("content", JStr content);
      ("url", if String.eqb type "link" then JStr content else JNull);
      ("title", if String.eqb type "link" then JStr content
                else JStr (string_slice content 0 50));
      ("type", JStr type);
      ("status", JStr "done");
      ("createdAt", JStr now);
      ("updatedAt", JStr now);
      ("containerTags", or_default containerTags (JArr []));
      ("metadata", or_default metadata (JObj ∅));
      ("memoryEntries", JArr []) ]).

Definition add_document (d : gmap string file_text) (uuid now : string) (body : value)
  : completion (gmap string file_text * response) :=
  content ← get body "content";
  containerTags ← get body "containerTags";
  metadata ← get body "metadata";
  match content with
  | Some (JStr content) =>
      '(d', memory) ← saveMemory d (new_memory uuid now content containerTags metadata);
      mret (d', Json 200 memory)
  | _ => Throw
  end.

Definition post_documents (d : gmap string file_text) (uuid now : string) (body : value)
  : gmap string file_text * response :=
  try_catch (add_document d uuid now body) (d, ServerError).

(** ** PATCH, DELETE and GET /v3/documents/:id *)

(** The object literal of the update:
    [{...memory, ...body, metadata: {...memory.metadata, ...body.metadata},
      updatedAt: now}].  A later entry wins over an earlier one, so
    the union is biased to the spread written last. *)
Definition merge_update (now : string) (memory body : value) : completion value :=
  old_metadata ← get memory "metadata";
  new_metadata ← get body "metadata";
  mret (JObj (<["updatedAt" := JStr now]>
             (<["metadata" := JObj (own_props new_metadata ∪ own_props old_metadata)]>
             (own_props (Some body) ∪ own_props (Some memory))))).

Definition update_document (d : gmap string file_text) (id now : string) (body : value)
  : completion (gmap string file_text * response) :=
  let filePath := id +:+ ".json" in
  content ← readFile d filePath;
  memory ← JSON_parse content;
  updated ← merge_update now memory body;
  '(d', updated) ← saveMemory d updated;
  mret (d', Json 200 updated).

Definition patch_document (d : gmap string file_text) (id now : string) (body : value)
  : gmap string file_text * response :=
  try_catch (update_document d id now body) (d, not_found).

Definition delete_document (d : gmap string file_text) (id : string)
  : gmap string file_text * response :=
  let filePath := id +:+ ".json" in
  try_catch (d' ← unlink d filePath;
             mret (d', Json 200 (JObj {[ "success" := JBool true ]})))
            (d, not_found).

Definition get_document (d : gmap string file_text) (id : string) : response :=
  let filePath := id +:+ ".json" in
  try_catch (content ← readFile d filePath;
             memory ← JSON_parse content;
             mret (Json 200 memory))
            not_found.

(** ** Sorting and filtering arrays with callbacks that may throw *)

(** [Array.prototype.sort] with a comparator. The sort is stable, and
    a NaN from the comparator counts as 0.  It is written as a stable
    insertion: an element goes before the first later element that it
    does not compare greater than.  For a comparator that is a
    consistent ordering every stable sort returns the same array. *)
Fixpoint insert_by {A} (cmp : A → A → completion (option Z)) (x : A) (l : list A)
  : completion (list A) :=
  match l with
  | [] => mret [x]
  | y :: l' =>
      v ← cmp x y;
      if (default 0 v <=? 0)%Z then mret (x :: y :: l')
      else r ← insert_by cmp x l'; mret (y :: r)
  end.

Fixpoint array_sort {A} (cmp : A → A → completion (option Z)) (l : list A)
  : completion (list A) :=
  match l with
  | [] => mret []
  | x :: l' => s ← array_sort cmp l'; insert_by cmp x s
  end.

(** [Array.prototype.filter] *)
Fixpoint array_filter {A} (p : A → completion bool) (l : list A) : completion (list A) :=
  match l with
  | [] => mret []
  | x :: l' =>
      keep ← p x;
      r ← array_filter p l';
      mret (if (keep : bool) then x :: r else r)
  end.

(** [Math.ceil(a / b)] on integers; [None] is the NaN or the infinity
    of a division by zero. *)
Definition ceil_div (a b : Z) : option Z :=
  if (b =? 0)%Z then None else Some (- ((- a) / b))%Z.

(** A number in a JSON response: NaN and the infinities are written
    as [null]. *)
Definition number_json (x : option Z) : value :=
  match x with
  | Some n => JNum n
  | None => JNull
  end.

(** The body of a list request, for bodies whose [page] and [limit],
    when present, are integers and whose [containerTags], when present,
    is an array ([None] is an absent or [null] entry). *)
Record list_body := {
  page : option Z;
  limit : option Z;
  containerTags : option (list value)
}.

(** The callback of the tag filter:
    [m.containerTags && m.containerTags.some(t => containerTags.includes(t))].
    A truthy [containerTags] that is no array has no [some] to call. *)
Definition has_tag (filter : list value) (m : value) : completion bool :=
  tags ← get m "containerTags";
  match tags with
  | Some (JArr ts) => mret (existsb (includes filter) ts)
  | Some v => if truthy v then Throw else mret false
  | None => mret false
  end.

(** The filtering step of the list request:
    [if (containerTags && containerTags.length > 0) memories = memories.filter(...)] *)
Definition filter_memories (containerTags : option (list value)) (memories : list value)
  : completion (list value) :=
  match containerTags with
  | Some (t :: ts) => array_filter (has_tag (t :: ts)) memories
  | _ => mret memories
  end.

(** [{...m, memoryEntries: []}] *)
Definition with_empty_entries (m : value) : value :=
  JObj (<["memoryEntries" := JArr []]> (own_props (Some m))).

Section Server.

(** [Date.parse] of the runtime: the time of a date string in
    milliseconds, [None] for NaN. *)
Variable Date_parse : string → option Z.

(** [new Date(x).getTime()], [None] for NaN.  An array or an object
    is first converted to a string. *)
Definition getTime (x : option value) : completion (option Z) :=
  match x with
  | None => mret None
  | Some JNull => mret (Some 0%Z)
  | Some (JBool b) => mret (Some (if b then 1 else 0)%Z)
  | Some (JNum n) =>
      mret (if decide (Z.abs n ≤ 8640000000000000)%Z then Some n else None)
  | Some (JStr s) => mret (Date_parse s)
  | Some v => s ← to_string v; mret (Date_parse s)
  end.

(** [new Date(m.createdAt).getTime()] *)
Definition created_time (m : value) : completion (option Z) :=
  createdAt ← get m "createdAt";
  getTime createdAt.

(** The comparator of [getAllMemories]:
    [new Date(b.createdAt).getTime() - new Date(a.createdAt).getTime()] *)
Definition compare_created (a b : value) : completion (option Z) :=
  tb ← created_time b;
  ta ← created_time a;
  mret (match tb, ta with
        | Some x, Some y => Some (x - y)%Z
        | _, _ => None
        end).

Definition read_memory (d : gmap string file_text) (file : string) : completion value :=
  content ← readFile d file;
  JSON_parse content.

(** The loop of [getAllMemories]: a file that cannot be read or
    parsed is logged and skipped. *)
Fixpoint read_memories (d : gmap string file_text) (files : list string) : list value :=
  match files with
  | [] => []
  | file :: rest =>
      if endsWith file ".json" then
        match read_memory d file with
        | Normal m => m :: read_memories d rest
        | Throw => read_memories d rest
        end
      else read_memories d rest
  end.

Definition getAllMemories (d : gmap string file_text) : completion (list value) :=
  array_sort compare_created (read_memories d (readdir d)).

(** ** POST /v3/documents/documents *)

Definition list_memories (d : gmap string file_text) (body : list_body) : completion response :=
  let page := default 1%Z (page body) in
  let limit := default 10%Z (limit body) in
  memories ← getAllMemories d;
  memories ← filter_memories (containerTags body) memories;
  let totalItems := Z.of_nat (length memories) in
  let totalPages := ceil_div totalItems limit in
  let offset := ((page - 1) * limit)%Z in
  let paginated := array_slice memories offset (offset + limit) in
  let documents := with_empty_entries <$> paginated in
  mret (Json 200 (JObj (list_to_map
    [ ("documents", JArr documents);
      ("pagination", JObj (list_to_map
        [ ("currentPage", JNum page);
          ("limit", JNum limit);
          ("totalItems", JNum totalItems);
          ("totalPages", number_json totalPages) ])) ]))).

Definition post_documents_documents (d : gmap string file_text) (body : list_body) : response :=
  try_catch (list_memories d body) ServerError.

(** ** POST /v3/documents/documents/by-ids *)

(** The callback [m => ids.includes(m.id)], for a body whose [ids] is
    an array.  No element of a parsed array is [undefined]. *)
Definition has_id (ids : list value) (m : value) : completion bool :=
  id ← get m "id";
  mret (match id with
        | Some v => includes ids v
        | None => false
        end).

Definition find_by_ids (d : gmap string file_text) (ids : list value) : completion response :=
  all ← getAllMemories d;
  found ← array_filter (has_id ids) all;
  mret (Json 200 (JObj {[ "documents" := JArr found ]})).

Definition post_documents_by_ids (d : gmap string file_text) (ids : list value) : response :=
  try_catch (find_by_ids d ids) ServerError.

End Server.

(** ** POST /v3/documents/file *)

(** An uploaded [File]: its name, its MIME type and its bytes. *)
Record File := {
  file_name : string;
  file_type : string;
  file_bytes : list Byte.byte
}.

(** [file.size] *)
Definition file_size (f : File) : Z := Z.of_nat (length (file_bytes f)).

(** A part of a multipart body: a file or a text. *)
Inductive form_part :=
| FilePart (f : File)
| TextPart (s : string).

(** The parsed body of an upload, for bodies whose [containerTags] and
    [metadata] parts, when present, are texts.  A text is kept, like
    the text of a file, as what [JSON.parse] makes of it. *)
Record upload_form := {
  form_file : option form_part;
  form_containerTags : option file_text;
  form_metadata : option file_text
}.

(** A text is truthy when it is not empty; a text that parses is not
    empty. *)
Definition text_truthy (t : file_text) : bool :=
  match t with
  | Serialized _ => true
  | Malformed raw => negb (String.eqb raw EmptyString)
  end.

(** [str ? JSON.parse(str) : d] *)
Definition parse_or (str : option file_text) (d : value) : completion value :=
  match str with
  | Some t => if text_truthy t then JSON_parse t else mret d
  | None => mret d
  end.

(** The record of an upload.  In
    [{...metadata, fileName, fileSize, mimeType, localPath}] the four
    entries written last win over the entries of the spread. *)
Definition file_memory (id now filePath : string) (f : File)
    (containerTags metadata : value) : value :=
  JObj (list_to_map
    [ ("id", JStr id);
      ("content", JStr EmptyString);
      ("url", JNull);
      ("title", JStr (file_name f));
      ("type", JStr "file");
      ("status", JStr "done");
      ("createdAt", JStr now);
      ("updatedAt", JStr now);
      ("containerTags", containerTags);
      ("metadata", JObj (<["localPath" := JStr filePath]>
                        (<["mimeType" := JStr (file_type f)]>
                        (<["fileSize" := JNum (file_size f)]>
                        (<["fileName" := JStr (file_name f)]>
                        (own_props (Some metadata)))))));
      ("memoryEntries", JArr []) ]).

Definition no_file : response :=
  Json 400 (JObj {[ "error" := JStr "No file uploaded" ]}).

(** The handler of an upload. [FILES_DIR] is the path [files_dir] (it
    has no trailing separator) and the directory [files], a map from
    names to bytes; [path.join(FILES_DIR, name)] is the path of the
    entry [name] (names are taken not to contain path separators).
    The file is written before the texts are parsed: an exception
    after it leaves the file written. *)
Definition post_documents_file (files_dir : string)
    (files : gmap string (list Byte.byte)) (d : gmap string file_text)
    (uuid now : string) (form : upload_form)
  : gmap string (list Byte.byte) * gmap string file_text * response :=
  match form_file form with
  | Some (FilePart file) =>
      let fileName := file_name file in
      let name := uuid +:+ "-" +:+ fileName in
      let filePath := files_dir +:+ "/" +:+ name in
      let files' := <[name := file_bytes file]> files in
      try_catch
        (containerTags ← parse_or (form_containerTags form) (JArr []);
         metadata ← parse_or (form_metadata form) (JObj ∅);
         '(d', memory) ←
           saveMemory d (file_memory uuid now filePath file containerTags metadata);
         mret (files', d', Json 200 memory))
        (files', d, ServerError)
  | _ => (files, d, no_file)
  end.

(** ** Notions of the specification and example data *)

(** The specification's words for the update of [metadata], a deep
    merge of the payload over the existing value: the entries are
    merged key by key, and two objects under one key are merged in
    turn. *)
Fixpoint deep_merge (existing payload : value) : value :=
  match existing, payload with
  | JObj x, JObj y =>
      JObj (merge (λ u v, match u, v with
                          | Some u, Some v => Some (deep_merge u v)
                          | Some u, None => Some u
                          | None, v => v
                          end) x y)
  | _, _ => payload
  end.

(** A record whose metadata holds an object under a key, and an update
    that supplies another object under that key. *)
Definition nested_memory : value :=
  JObj (list_to_map
    [ ("id", JStr "a");
      ("metadata", JObj {[ "k" := JObj {[ "x" := JNum 1 ]} ]}) ]).

Definition nested_payload : value :=
  JObj {[ "metadata" := JObj {[ "k" := JObj {[ "y" := JNum 2 ]} ]} ]}.

Definition merged_memory : value :=
  JObj (list_to_map
    [ ("id", JStr "a"); ("title", JStr "X");
      ("metadata", JObj (list_to_map [("a", JNum 1); ("b", JNum 2)])) ]).

Definition merged_payload : value :=
  JObj (list_to_map
    [ ("title", JStr "Y");
      ("metadata", JObj (list_to_map [("b", JNum 3); ("c", JNum 4)])) ]).

(** A sequence of update requests to one id, each with its time and
    its payload, handled one after the other. *)
Fixpoint apply_updates (d : gmap string file_text) (id : string)
    (updates : list (string * value)) : gmap string file_text :=
  match updates with
  | [] => d
  | (now, body) :: rest => apply_updates (patch_document d id now body).1 id rest
  end.

(** A stored note, an update that supplies [type] and [createdAt], and
    an update that supplies an [id]. *)
Definition typed_memory : value :=
  JObj (list_to_map
    [ ("id", JStr "a");
      ("type", JStr "note");
      ("createdAt", JStr "2024-01-01T00:00:00.000Z");
      ("metadata", JObj ∅) ]).

Definition retyping_payload : value :=
  JObj (list_to_map
    [ ("type", JStr "link");
      ("createdAt", JStr "1999-12-31T00:00:00.000Z") ]).

Definition rekeying_payload : value := JObj {[ "id" := JStr "b" ]}.

(** The record that the update with an [id] answers. *)
Definition rekeyed_memory : value :=
  JObj (list_to_map
    [ ("id", JStr "b");
      ("type", JStr "note");
      ("createdAt", JStr "2024-01-01T00:00:00.000Z");
      ("metadata", JObj ∅);
      ("updatedAt", JStr "2024-02-01T00:00:00.000Z") ]).

(** Descending order of a key. *)
Definition descending {A} (key : A → Z) (a b : A) : Prop := (key b ≤ key a)%Z.

(** A record shares a tag with a filter: some element of its
    [containerTags] is an element of the filter. *)
Definition shares_a_tag (filter : list value) (m : value) : Prop :=
  ∃ ts t, field "containerTags" m = Some (JArr ts) ∧ t ∈ ts ∧ t ∈ filter.

#[global] Instance shares_a_tag_dec filter m : Decision (shares_a_tag filter m).
Proof.
  refine (match field "containerTags" m as o
                return field "containerTags" m = o → Decision (shares_a_tag filter m) with
          | Some (JArr ts) => λ H, cast_if (decide (Exists (λ t, t ∈ filter) ts))
          | _ => λ H, right _
          end eq_refl);
    unfold shares_a_tag; rewrite H; try (intros (? & ? & [=] & _); fail).
  - apply Exists_exists in e as (t & Ht & Hf). by exists ts, t.
  - intros (ts' & t & [= <-] & Ht & Hf). apply n, Exists_exists. eauto.
Defined.

(** The [containerTags] of a stored value can be filtered: the value
    is not [null], and the entry is an array, or absent, or falsy. *)
Definition tags_well_formed (m : value) : Prop :=
  m ≠ JNull
  ∧ ∀ v, field "containerTags" m = Some v → (∃ ts, v = JArr ts) ∨ truthy v = false.

(** The documents of a list response. *)
Definition response_documents (r : response) : option (list value) :=
  match r with
  | Json _ body =>
      match field "documents" body with
      | Some (JArr docs) => Some docs
      | _ => None
      end
  | ServerError => None
  end.

(** An entry of the pagination of a list response. *)
Definition response_pagination (r : response) (k : string) : option value :=
  match r with
  | Json _ body => field "pagination" body ≫= field k
  | ServerError => None
  end.

Section Times.

Variable Date_parse : string → option Z.

(** The time of a record whose [createdAt] is a valid date. *)
Definition time_of (m : value) : Z :=
  match created_time Date_parse m with
  | Normal (Some t) => t
  | _ => 0%Z
  end.

(** [a] was not created before [b]. *)
Definition not_older (a b : value) : Prop :=
  ∃ ta tb, created_time Date_parse a = Normal (Some ta)
           ∧ created_time Date_parse b = Normal (Some tb)
           ∧ (tb ≤ ta)%Z.

End Times.

(** The values that the files of the directory hold: those of the
    files named [*.json] whose text parses. *)
Definition stored (d : gmap string file_text) (m : value) : Prop :=
  ∃ file text, d !! file = Some text
               ∧ endsWith file ".json" = true
               ∧ JSON_parse text = Normal m.

(** What one entry of the directory contributes to the enumeration:
    the value of a file named [*.json] whose text parses, nothing
    otherwise. *)
Definition parsed_entry (entry : string * file_text) : option value :=
  if endsWith entry.1 ".json" then
    match JSON_parse entry.2 with
    | Normal m => Some m
    | Throw => None
    end
  else None.

(** A runtime clock that knows three dates. *)
Definition three_dates (s : string) : option Z :=
  if decide (s = "2024-01-01T00:00:00.000Z") then Some 1704067200000%Z
  else if decide (s = "2024-01-02T00:00:00.000Z") then Some 1704153600000%Z
  else if decide (s = "2024-01-03T00:00:00.000Z") then Some 1704240000000%Z
  else None.

Definition note (content : string) : value := JObj {[ "content" := JStr content ]}.

(** Three notes created one day after the other. *)
Definition first_note : value :=
  new_memory "a" "2024-01-01T00:00:00.000Z" "first" None None.
Definition second_note : value :=
  new_memory "b" "2024-01-02T00:00:00.000Z" "second" None None.
Definition third_note : value :=
  new_memory "c" "2024-01-03T00:00:00.000Z" "third" None None.

Definition three_notes : gmap string file_text :=
  let d1 := (post_documents ∅ "a" "2024-01-01T00:00:00.000Z" (note "first")).1 in
  let d2 := (post_documents d1 "b" "2024-01-02T00:00:00.000Z" (note "second")).1 in
  (post_documents d2 "c" "2024-01-03T00:00:00.000Z" (note "third")).1.

(** The same directory with a file that does not parse and a file
    that is no record file. *)
Definition damaged_notes : gmap string file_text :=
  <["x.json" := Malformed "{ id: "]> (<["README" := Malformed "notes"]> three_notes).

(** A directory of [n] notes. *)
Fixpoint many_notes (n : nat) : gmap string file_text :=
  match n with
  | O => ∅
  | S k => (post_documents (many_notes k) (pretty k) "2024-01-01T00:00:00.000Z"
              (note "something to remember")).1
  end.

(** A record with two tags. *)
Definition tagged_note : value :=
  new_memory "a" "2024-01-01T00:00:00.000Z" "tagged"
    (Some (JArr [JStr "x"; JStr "y"])) None.

(** A stored record that holds a memory entry. *)
Definition note_with_entries : value :=
  JObj (list_to_map
    [ ("id", JStr "a");
      ("createdAt", JStr "2024-01-01T00:00:00.000Z");
      ("memoryEntries", JArr [JObj {[ "memory" := JStr "an entry" ]}]) ]).

(** The requests that write to the data directory, and the directory
    after a request and after a sequence of requests. *)
Inductive request :=
| Create (uuid now : string) (body : value)
| Upload (files_dir uuid now : string) (form : upload_form)
| Update (id now : string) (body : value)
| Delete (id : string).

Definition serve (s : gmap string (list Byte.byte) * gmap string file_text) (r : request)
  : gmap string (list Byte.byte) * gmap string file_text :=
  match r with
  | Create uuid now body => (s.1, (post_documents s.2 uuid now body).1)
  | Upload files_dir uuid now form => (post_documents_file files_dir s.1 s.2 uuid now form).1
  | Update id now body => (s.1, (patch_document s.2 id now body).1)
  | Delete id => (s.1, (delete_document s.2 id).1)
  end.

Definition serve_all (s : gmap string (list Byte.byte) * gmap string file_text)
    (requests : list request)
  : gmap string (list Byte.byte) * gmap string file_text :=
  foldl serve s requests.

(** Every file that holds a value is named after the [id] of the
    value: the name is the string of the id followed by [.json]. *)
Definition named_by_id (d : gmap string file_text) : Prop :=
  ∀ name m, d !! name = Some (Serialized m) →
    ∃ stem, (get m "id" ≫= template) = Normal stem ∧ name = stem +:+ ".json".

(** The single update that two updates amount to: the entries of the
    second payload over those of the first, and likewise for their
    [metadata]. *)
Definition combined_payload (body1 body2 : value) : value :=
  JObj (<["metadata" := JObj (own_props (field "metadata" body2)
                               ∪ own_props (field "metadata" body1))]>
         (own_props (Some body2) ∪ own_props (Some body1))).

(** The windows of the pages [first], [first + 1], ... ([count] of
    them) of a list, each cut as the list request cuts it. *)
Fixpoint page_windows {A} (l : list A) (limit : Z) (first : Z) (count : nat) : list (list A) :=
  match count with
  | O => []
  | S n =>
      array_slice l ((first - 1) * limit) ((first - 1) * limit + limit)
      :: page_windows l limit (first + 1) n
  end.

(** The [id] of a record is an element of [ids]. *)
Definition id_among (ids : list value) (m : value) : Prop :=
  ∃ i, field "id" m = Some i ∧ i ∈ ids.

#[global] Instance id_among_dec ids m : Decision (id_among ids m).
Proof.
  refine (match field "id" m as o return field "id" m = o → Decision (id_among ids m) with
          | Some i => λ H, cast_if (decide (i ∈ ids))
          | None => λ H, right _
          end eq_refl); unfold id_among; rewrite H.
  - by exists i.
  - by intros (i' & [= <-] & Hin).
  - by intros (i' & [=] & _).
Defined.

(** An upload of a small text file with two tags and with metadata
    that names a [fileName] of its own. *)
Definition hello_file : File :=
  {| file_name := "hello.txt"; file_type := "text/plain";
     file_bytes := [Byte.x68; Byte.x69] |}.

Definition hello_form : upload_form :=
  {| form_file := Some (FilePart hello_file);
     form_containerTags := Some (Serialized (JArr [JStr "x"; JStr "y"]));
     form_metadata :=
       Some (Serialized (JObj (list_to_map
         [ ("fileName", JStr "other.txt"); ("author", JStr "me") ]))) |}.

(** A note created with a text, not an array, as [containerTags]. *)
Definition loosely_tagged_note : value :=
  new_memory "a" "2024-01-01T00:00:00.000Z" "loose" (Some (JStr "x")) None.

(** * Properties *)

(** ** The completion monad *)

Lemma bind_Normal {A B} (f : A → completion B) (c : completion A) (b : B) :
  c ≫= f = Normal b ↔ ∃ a, c = Normal a ∧ f a = Normal b.
Proof.
  destruct c as [a|]; simpl; split.
  - intros H. by exists a.
  - by intros (a' & [= <-] & H).
  - done.
  - by intros (a' & [=] & _).
Qed.

(** ** Strings and slices *)

Lemma substring_min n s :
  substring 0 (n `min` String.length s) s = substring 0 n s.
Proof.
  revert n. induction s as [|c s IH]; intros [|n]; simpl; try done.
  by rewrite IH.
Qed.

(** [s.slice(0, n)] is the first [n] characters of [s]. *)
Lemma string_slice_first (s : string) (n : nat) :
  string_slice s 0 (Z.of_nat n) = substring 0 n s.
Proof.
  unfold string_slice, clamp_index.
  replace (0 <? 0)%Z with false by done.
  replace (Z.of_nat n <? 0)%Z with false by (symmetry; apply Z.ltb_ge; lia).
  rewrite Z.min_l by lia. simpl.
  replace (Z.to_nat (Z.of_nat n `min` Z.of_nat (String.length s) - 0))
    with (n `min` String.length s) by lia.
  apply substring_min.
Qed.

(** A slice with indices in order and not negative is a [take] of a [drop]. *)
Lemma array_slice_window {A} (a : list A) (b e : Z) :
  (0 ≤ b ≤ e)%Z →
  array_slice a b e = take (Z.to_nat (e - b)) (drop (Z.to_nat b) a).
Proof.
  intros Hbe. unfold array_slice, clamp_index.
  replace (b <? 0)%Z with false by (symmetry; apply Z.ltb_ge; lia).
  replace (e <? 0)%Z with false by (symmetry; apply Z.ltb_ge; lia).
  destruct (decide (b ≤ Z.of_nat (length a))%Z) as [Hb|Hb].
  - rewrite (Z.min_l b) by lia.
    destruct (decide (e ≤ Z.of_nat (length a))%Z) as [He|He].
    + by rewrite (Z.min_l e) by lia.
    + rewrite (Z.min_r e) by lia.
      rewrite !take_ge; [done| |]; rewrite length_drop; lia.
  - rewrite (Z.min_r b), (Z.min_r e) by lia.
    rewrite !drop_ge by lia. by rewrite !take_nil.
Qed.

(** ** Creation *)

(** C1: for every create call whose [content] is a string, the record
    returned with status 200 and persisted under its id has, when the
    content starts with ["http"], type [link] and the content as url
    and as title, and otherwise type [note], url [null] and the first
    50 characters of the content as title. *)
Theorem create_classifies_content (d : gmap string file_text) (uuid now : string)
    (body : value) (content : string) :
  field "content" body = Some (JStr content) →
  ∃ memory,
    post_documents d uuid now body
      = (<[uuid +:+ ".json" := JSON_stringify memory]> d, Json 200 memory)
    ∧ field "content" memory = Some (JStr content)
    ∧ if startsWith content "http"
      then field "type" memory = Some (JStr "link")
           ∧ field "url" memory = Some (JStr content)
           ∧ field "title" memory = Some (JStr content)
      else field "type" memory = Some (JStr "note")
           ∧ field "url" memory = Some JNull
           ∧ field "title" memory = Some (JStr (substring 0 50 content)).
Proof.
  intros Hc. destruct body as [| | | | |m]; try discriminate. simpl in Hc.
  eexists. split.
  - unfold post_documents, add_document. simpl. rewrite Hc. simpl. reflexivity.
  - pose proof (string_slice_first content 50) as Hs.
    change (Z.of_nat 50) with 50%Z in Hs.
    unfold new_memory. rewrite Hs.
    destruct (startsWith content "http"); repeat split; reflexivity.
Qed.

Lemma create_classifies_content_witness :
  field "content" (JObj {[ "content" := JStr "hello world" ]}) = Some (JStr "hello world")
  ∧ ∃ memory,
      post_documents ∅ "id-1" "2024-01-01T00:00:00.000Z" (JObj {[ "content" := JStr "hello world" ]})
        = (<["id-1" +:+ ".json" := JSON_stringify memory]> ∅, Json 200 memory)
      ∧ field "content" memory = Some (JStr "hello world")
      ∧ if startsWith "hello world" "http"
        then field "type" memory = Some (JStr "link")
             ∧ field "url" memory = Some (JStr "hello world")
             ∧ field "title" memory = Some (JStr "hello world")
        else field "type" memory = Some (JStr "note")
             ∧ field "url" memory = Some JNull
             ∧ field "title" memory = Some (JStr (substring 0 50 "hello world")).
Proof.
  split; [reflexivity|].
  apply create_classifies_content. reflexivity.
Defined.

(** ** Update *)

Lemma get_not_null (v : value) (k : string) : v ≠ JNull → get v k = Normal (field k v).
Proof. by destruct v. Qed.

Lemma merge_update_Normal now memory body :
  memory ≠ JNull → body ≠ JNull →
  merge_update now memory body
  = Normal (JObj (<["updatedAt" := JStr now]>
                 (<["metadata" := JObj (own_props (field "metadata" body)
                                        ∪ own_props (field "metadata" memory))]>
                 (own_props (Some body) ∪ own_props (Some memory))))).
Proof.
  intros Hm Hb. unfold merge_update.
  by rewrite (get_not_null memory), (get_not_null body).
Qed.

Lemma saveMemory_object d (m : gmap string value) stem :
  template (m !! "id") = Normal stem →
  saveMemory d (JObj m) = Normal (<[stem +:+ ".json" := JSON_stringify (JObj m)]> d, JObj m).
Proof. intros H. unfold saveMemory. simpl. by rewrite H. Qed.

(** C2, as the code has it: for every stored value and every payload,
    neither of them [null], whose resulting id converts to a string,
    the update answers 200 with the updated record and persists it.
    Every supplied top-level field other than [metadata] and
    [updatedAt] replaces the existing one and the fields not supplied
    stay; [updatedAt] is the current time; [metadata] is merged one
    level deep: a supplied metadata key takes the payload's value
    whole, and every other existing metadata key stays. *)
Theorem update_merges_one_level (d : gmap string file_text) (id now stem : string)
    (memory body : value) :
  d !! (id +:+ ".json") = Some (Serialized memory) →
  memory ≠ JNull →
  body ≠ JNull →
  template ((own_props (Some body) ∪ own_props (Some memory)) !! "id") = Normal stem →
  ∃ updated,
    patch_document d id now body
      = (<[stem +:+ ".json" := JSON_stringify updated]> d, Json 200 updated)
    ∧ (∀ k, k ≠ "metadata" → k ≠ "updatedAt" →
         field k updated = match own_props (Some body) !! k with
                           | Some v => Some v
                           | None => own_props (Some memory) !! k
                           end)
    ∧ field "updatedAt" updated = Some (JStr now)
    ∧ ∃ metadata,
        field "metadata" updated = Some (JObj metadata)
        ∧ ∀ k, metadata !! k = match own_props (field "metadata" body) !! k with
                               | Some v => Some v
                               | None => own_props (field "metadata" memory) !! k
                               end.
Proof.
  intros Hfile Hm Hb Hid.
  eexists. split; [|split; [|split]].
  - unfold patch_document, update_document, readFile. rewrite Hfile. simpl.
    rewrite merge_update_Normal by done.
    cbn [mbind completion_bind].
    erewrite saveMemory_object; [reflexivity|].
    by rewrite !lookup_insert_ne.
  - intros k Hk1 Hk2. cbn [field]. rewrite !lookup_insert_ne by done.
    rewrite lookup_union. by destruct (own_props (Some body) !! k), (own_props (Some memory) !! k).
  - cbn [field]. by rewrite lookup_insert_eq.
  - eexists. split.
    + cbn [field]. rewrite lookup_insert_ne by done. by rewrite lookup_insert_eq.
    + intros k. rewrite lookup_union.
      by destruct (own_props (field "metadata" body) !! k), (own_props (field "metadata" memory) !! k).
Qed.

(** The metadata merge is not a deep merge: an object under a supplied
    metadata key is replaced, its existing entries are not kept. *)
Lemma update_metadata_not_deep :
  ∃ updated existing payload,
    patch_document {[ "a.json" := Serialized nested_memory ]} "a" "now" nested_payload
      = (<["a.json" := Serialized updated]> {[ "a.json" := Serialized nested_memory ]},
         Json 200 updated)
    ∧ field "metadata" nested_memory = Some existing
    ∧ field "metadata" nested_payload = Some payload
    ∧ deep_merge existing payload
        = JObj {[ "k" := JObj (list_to_map [("x", JNum 1); ("y", JNum 2)]) ]}
    ∧ field "metadata" updated = Some (JObj {[ "k" := JObj {[ "y" := JNum 2 ]} ]})
    ∧ field "metadata" updated ≠ Some (deep_merge existing payload).
Proof.
  eexists _, _, _.
  split; [vm_compute; reflexivity|].
  split; [vm_compute; reflexivity|].
  split; [vm_compute; reflexivity|].
  split; [vm_compute; reflexivity|].
  split; [vm_compute; reflexivity|].
  vm_compute. intros [=].
Qed.

(** Existing metadata [{a:1,b:2}] updated with [{b:3,c:4}] gives
    [{a:1,b:3,c:4}], and the title ["X"] updated with ["Y"] gives ["Y"]. *)
Lemma update_merges_one_level_witness :
  ∃ updated,
    patch_document {[ "a.json" := Serialized merged_memory ]} "a" "now" merged_payload
      = (<["a.json" := JSON_stringify updated]> {[ "a.json" := Serialized merged_memory ]},
         Json 200 updated)
    ∧ field "title" updated = Some (JStr "Y")
    ∧ field "id" updated = Some (JStr "a")
    ∧ field "metadata" updated
        = Some (JObj (list_to_map [("a", JNum 1); ("b", JNum 3); ("c", JNum 4)])).
Proof.
  destruct (update_merges_one_level
              {[ "a.json" := Serialized merged_memory ]} "a" "now" "a"
              merged_memory merged_payload)
    as (updated & Hpatch & Htop & _ & metadata & Hmeta & Hkeys);
    [reflexivity | discriminate | discriminate | reflexivity |].
  exists updated. split; [exact Hpatch|].
  split; [by rewrite Htop|]. split; [by rewrite Htop|].
  rewrite Hmeta. do 2 f_equal. apply map_eq. intros k. rewrite Hkeys.
  destruct (decide (k = "a")) as [->|]; [reflexivity|].
  destruct (decide (k = "b")) as [->|]; [reflexivity|].
  destruct (decide (k = "c")) as [->|]; [reflexivity|].
  replace (field "metadata" merged_payload)
    with (Some (JObj (list_to_map [("b", JNum 3); ("c", JNum 4)]))) by reflexivity.
  replace (field "metadata" merged_memory)
    with (Some (JObj (list_to_map [("a", JNum 1); ("b", JNum 2)]))) by reflexivity.
  cbn [own_props list_to_map foldr uncurry].
  by rewrite !lookup_insert_ne, !lookup_empty by done.
Defined.

(** One update leaves a field of the file of its id as it was, when
    the payload does not supply that field. *)
Lemma patch_keeps_unsupplied_field d id now body (record : gmap string value) k :
  d !! (id +:+ ".json") = Some (Serialized (JObj record)) →
  k ≠ "metadata" → k ≠ "updatedAt" →
  own_props (Some body) !! k = None →
  ∃ record' : gmap string value,
    (patch_document d id now body).1 !! (id +:+ ".json") = Some (Serialized (JObj record'))
    ∧ record' !! k = record !! k.
Proof.
  intros Hfile Hk1 Hk2 Hbody.
  unfold patch_document, update_document, readFile. rewrite Hfile.
  cbn [mbind completion_bind JSON_parse].
  destruct (decide (body = JNull)) as [->|Hb].
  { exists record. by split. }
  rewrite merge_update_Normal by done. cbn [mbind completion_bind].
  set (updated := <["updatedAt":=_]> _).
  destruct (template (updated !! "id")) as [stem|] eqn:Hstem.
  - rewrite (saveMemory_object _ _ stem) by done.
    cbn [mbind completion_bind mret completion_ret try_catch fst].
    destruct (decide (stem +:+ ".json" = id +:+ ".json")) as [->|Hne].
    + exists updated. split; [by rewrite lookup_insert_eq|].
      unfold updated. rewrite !lookup_insert_ne by done.
      rewrite lookup_union, Hbody. cbn [own_props].
      by destruct (record !! k).
    + exists record. split; [by rewrite lookup_insert_ne|done].
  - unfold saveMemory. cbn [get field mbind completion_bind]. rewrite Hstem.
    exists record. by split.
Qed.

(** C3, as the code has it: for every stored record and every sequence
    of updates of its id whose payloads do not supply [type] (or
    [createdAt]), the stored record keeps the [type] (or the
    [createdAt]) it had. *)
Theorem updates_keep_type_and_createdAt (d : gmap string file_text) (id : string)
    (record : gmap string value) (updates : list (string * value)) (k : string) :
  d !! (id +:+ ".json") = Some (Serialized (JObj record)) →
  k = "type" ∨ k = "createdAt" →
  Forall (λ u, own_props (Some u.2) !! k = None) updates →
  ∃ record' : gmap string value,
    apply_updates d id updates !! (id +:+ ".json") = Some (Serialized (JObj record'))
    ∧ record' !! k = record !! k.
Proof.
  intros Hfile Hk Hupdates. revert d record Hfile.
  induction Hupdates as [|[now body] updates Hbody _ IH]; intros d record Hfile.
  - exists record. by split.
  - cbn [apply_updates]. cbn [snd] in Hbody.
    destruct (patch_keeps_unsupplied_field d id now body record k)
      as (record1 & Hfile1 & Hsame1);
      [done | by destruct Hk as [->| ->] | by destruct Hk as [->| ->] | done |].
    destruct (IH _ _ Hfile1) as (record' & Hfile' & Hsame').
    exists record'. split; [done|]. by rewrite Hsame'.
Qed.

Lemma updates_keep_type_and_createdAt_witness :
  ∃ record' : gmap string value,
    apply_updates {[ "a.json" := Serialized typed_memory ]} "a"
      [ ("2024-02-01T00:00:00.000Z", JObj {[ "title" := JStr "Y" ]});
        ("2024-03-01T00:00:00.000Z", rekeying_payload) ] !! "a.json"
      = Some (Serialized (JObj record'))
    ∧ record' !! "type" = Some (JStr "note").
Proof.
  destruct (updates_keep_type_and_createdAt
              {[ "a.json" := Serialized typed_memory ]} "a"
              (list_to_map
                 [ ("id", JStr "a");
                   ("type", JStr "note");
                   ("createdAt", JStr "2024-01-01T00:00:00.000Z");
                   ("metadata", JObj ∅) ])
              [ ("2024-02-01T00:00:00.000Z", JObj {[ "title" := JStr "Y" ]});
                ("2024-03-01T00:00:00.000Z", rekeying_payload) ]
              "type")
    as (record' & Hfile & Hsame).
  - reflexivity.
  - by left.
  - repeat constructor.
  - exists record'. split; [exact Hfile|]. by rewrite Hsame.
Defined.

(** An update whose payload supplies [type] and [createdAt] changes
    both in the stored record. *)
Lemma update_changes_type_and_createdAt :
  ∃ record' : gmap string value,
    apply_updates {[ "a.json" := Serialized typed_memory ]} "a"
      [ ("2024-02-01T00:00:00.000Z", retyping_payload) ] !! "a.json"
      = Some (Serialized (JObj record'))
    ∧ record' !! "type" = Some (JStr "link")
    ∧ record' !! "type" ≠ field "type" typed_memory
    ∧ record' !! "createdAt" = Some (JStr "1999-12-31T00:00:00.000Z")
    ∧ record' !! "createdAt" ≠ field "createdAt" typed_memory.
Proof.
  eexists. split; [vm_compute; reflexivity|].
  split; [vm_compute; reflexivity|].
  split; [vm_compute; intros [=]|].
  split; [vm_compute; reflexivity|].
  vm_compute. intros [=].
Qed.

(** An update whose payload supplies no [id] rewrites the file it
    read: the record stays under its key and the directory has the
    same files. *)
Lemma patch_without_id_rewrites_file d id now body (record : gmap string value) :
  d !! (id +:+ ".json") = Some (Serialized (JObj record)) →
  record !! "id" = Some (JStr id) →
  body ≠ JNull →
  own_props (Some body) !! "id" = None →
  ∃ updated,
    patch_document d id now body
      = (<[id +:+ ".json" := Serialized updated]> d, Json 200 updated)
    ∧ field "id" updated = Some (JStr id)
    ∧ dom (<[id +:+ ".json" := Serialized updated]> d) = dom d.
Proof.
  intros Hfile Hid Hbody Hnone.
  assert ((own_props (Some body) ∪ own_props (Some (JObj record))) !! "id"
          = Some (JStr id)) as Hkept.
  { rewrite lookup_union, Hnone. cbn [own_props]. by rewrite Hid. }
  eexists. split; [|split].
  - unfold patch_document, update_document, readFile. rewrite Hfile.
    cbn [mbind completion_bind JSON_parse].
    rewrite merge_update_Normal by done. cbn [mbind completion_bind].
    erewrite saveMemory_object; [reflexivity|].
    rewrite !lookup_insert_ne by done. by rewrite Hkept.
  - cbn [field]. by rewrite !lookup_insert_ne.
  - rewrite dom_insert_L. apply elem_of_dom_2 in Hfile.
    apply subseteq_union_1_L. by apply singleton_subseteq_l.
Qed.

(** C4, at an update whose payload supplies an [id]: the handler reads
    the file of the id in the path and writes the file of the id in
    the payload.  The answer is 200 with a record of the new id, the
    file of the old id still holds the record as it was, and the
    updated record is a second file. *)
Lemma update_with_id_writes_second_file :
  let d := {[ "a.json" := Serialized typed_memory ]} in
  let d' := <["b.json" := Serialized rekeyed_memory]> d in
  patch_document d "a" "2024-02-01T00:00:00.000Z" rekeying_payload
    = (d', Json 200 rekeyed_memory)
  ∧ field "id" rekeyed_memory = Some (JStr "b")
  ∧ field "createdAt" rekeyed_memory = field "createdAt" typed_memory
  ∧ d' !! "a.json" = Some (Serialized typed_memory)
  ∧ d' !! "b.json" = Some (Serialized rekeyed_memory)
  ∧ get_document d' "a" = Json 200 typed_memory.
Proof.
  cbv zeta. split; [vm_compute; reflexivity|].
  split; [reflexivity|]. split; [reflexivity|].
  split; [reflexivity|]. split; [reflexivity|].
  vm_compute. reflexivity.
Qed.

(** ** Sorting and filtering *)

Section array_sort.
Context {A : Type} (cmp : A → A → completion (option Z)).

Lemma insert_by_Permutation x l l' :
  insert_by cmp x l = Normal l' → l' ≡ₚ x :: l.
Proof.
  revert l'. induction l as [|y l IH]; intros l'; cbn [insert_by].
  - by intros [= <-].
  - intros (v & _ & Hv)%bind_Normal.
    destruct (default 0 v <=? 0)%Z.
    + by injection Hv as <-.
    + apply bind_Normal in Hv as (r & Hr & [= <-]).
      rewrite (IH _ Hr). apply Permutation_swap.
Qed.

Lemma array_sort_Permutation l l' :
  array_sort cmp l = Normal l' → l' ≡ₚ l.
Proof.
  revert l'. induction l as [|x l IH]; intros l'; cbn [array_sort].
  - by intros [= <-].
  - intros (s & Hs & Hins)%bind_Normal.
    rewrite (insert_by_Permutation _ _ _ Hins). by rewrite (IH _ Hs).
Qed.

(** The sort returns when the comparator does on the elements. *)
Section returns.
Context (P : A → Prop).
Hypothesis cmp_returns : ∀ a b, P a → P b → ∃ v, cmp a b = Normal v.

Lemma insert_by_returns x l :
  P x → Forall P l → ∃ l', insert_by cmp x l = Normal l'.
Proof.
  intros Hx. induction 1 as [|y l Hy Hl IH]; cbn [insert_by]; [by eexists|].
  destruct (cmp_returns x y Hx Hy) as [v ->]. cbn [mbind completion_bind].
  destruct (default 0 v <=? 0)%Z; [by eexists|].
  destruct IH as [r ->]. by eexists.
Qed.

Lemma array_sort_returns l :
  Forall P l → ∃ l', array_sort cmp l = Normal l'.
Proof.
  induction 1 as [|x l Hx Hl IH]; cbn [array_sort]; [by eexists|].
  destruct IH as [s Hs]. rewrite Hs. cbn [mbind completion_bind].
  apply insert_by_returns; [done|].
  by rewrite (array_sort_Permutation _ _ Hs).
Qed.
End returns.

(** When the comparator is the difference of a key, the result is in
    descending order of the key, and elements of equal key keep the
    order they came in. *)
Section by_key.
Context (P : A → Prop) (key : A → Z).
Hypothesis cmp_key : ∀ a b, P a → P b → cmp a b = Normal (Some (key b - key a)%Z).

Lemma insert_by_key x l :
  P x → Forall P l → StronglySorted (descending key) l →
  ∃ l', insert_by cmp x l = Normal l'
        ∧ StronglySorted (descending key) l'
        ∧ ∀ t, filter (λ a, key a = t) l' = filter (λ a, key a = t) (x :: l).
Proof.
  intros Hx Hl Hsorted. induction Hl as [|y l Hy Hl IH]; cbn [insert_by].
  - eexists. split; [done|]. split; [|done]. repeat constructor.
  - rewrite (cmp_key x y Hx Hy). cbn [mbind completion_bind from_option id].
    apply StronglySorted_inv in Hsorted as [Hsorted Hall].
    destruct (Z.leb_spec (key y - key x) 0) as [Hle|Hgt].
    + eexists. split; [reflexivity|]. split; [|done].
      constructor; [by constructor|].
      constructor; [unfold descending; lia|].
      eapply Forall_impl; [exact Hall|]. unfold descending. intros; lia.
    + destruct (IH Hsorted) as (r & Hins & Hr & Hstable). rewrite Hins.
      eexists. split; [reflexivity|]. split.
      * constructor; [done|].
        rewrite (insert_by_Permutation x l r Hins).
        constructor; [unfold descending; lia|done].
      * intros t. rewrite !filter_cons, Hstable, filter_cons.
        repeat case_decide; try done; lia.
Qed.

Lemma array_sort_by_key l :
  Forall P l →
  ∃ l', array_sort cmp l = Normal l'
        ∧ l' ≡ₚ l
        ∧ StronglySorted (descending key) l'
        ∧ ∀ t, filter (λ a, key a = t) l' = filter (λ a, key a = t) l.
Proof.
  induction 1 as [|x l Hx Hl IH]; cbn [array_sort].
  - eexists. split; [done|]. split; [done|]. split; [constructor|done].
  - destruct IH as (s & Hs & Hperm & Hsorted & Hstable).
    rewrite Hs. cbn [mbind completion_bind].
    destruct (insert_by_key x s) as (l' & Hl' & Hsorted' & Hstable');
      [done | by rewrite Hperm | done |].
    exists l'. split; [done|]. split.
    + rewrite (insert_by_Permutation _ _ _ Hl'). by rewrite Hperm.
    + split; [done|]. intros t. rewrite Hstable', !filter_cons. by rewrite Hstable.
Qed.
End by_key.
End array_sort.

Lemma array_filter_Normal {A} (p : A → completion bool) (q : A → bool) (l : list A) :
  Forall (λ x, p x = Normal (q x)) l →
  array_filter p l = Normal (filter (λ x, q x = true) l).
Proof.
  induction 1 as [|x l Hx _ IH]; cbn [array_filter]; [done|].
  rewrite Hx, IH. cbn [mbind completion_bind mret completion_ret].
  rewrite filter_cons. by destruct (q x); case_decide.
Qed.

Lemma array_filter_sublist {A} (p : A → completion bool) (l l' : list A) :
  array_filter p l = Normal l' → sublist l' l.
Proof.
  revert l'. induction l as [|x l IH]; intros l'; cbn [array_filter].
  - intros [= <-]. constructor.
  - intros (keep & _ & (r & Hr & [= <-])%bind_Normal)%bind_Normal.
    destruct keep; [apply sublist_skip | apply sublist_cons]; auto.
Qed.

(** ** Enumeration *)

Lemma elem_of_readdir (d : gmap string file_text) (file : string) :
  file ∈ readdir d ↔ is_Some (d !! file).
Proof.
  unfold readdir. rewrite list_elem_of_fmap. split.
  - intros ([f t] & -> & Hin%elem_of_map_to_list). by exists t.
  - intros [t Ht]. exists (file, t). split; [done|]. by apply elem_of_map_to_list.
Qed.

Lemma filter_iff_Forall {A} (P1 P2 : A → Prop)
    `{!∀ x, Decision (P1 x), !∀ x, Decision (P2 x)} (l : list A) :
  Forall (λ x, P1 x ↔ P2 x) l → filter P1 l = filter P2 l.
Proof.
  induction 1 as [|x l Hx _ IH]; [done|].
  rewrite !filter_cons, IH. destruct Hx. repeat case_decide; try done; exfalso; auto.
Qed.

Section Enumeration.

Variable Date_parse : string → option Z.

Lemma elem_of_read_memories d files m :
  m ∈ read_memories d files
  ↔ ∃ file, file ∈ files ∧ endsWith file ".json" = true ∧ read_memory d file = Normal m.
Proof.
  induction files as [|file files IH]; cbn [read_memories].
  - split; [by intros ?%elem_of_nil | by intros (? & ?%elem_of_nil & _)].
  - destruct (endsWith file ".json") eqn:Hjson;
      [destruct (read_memory d file) as [m'|] eqn:Hread|].
    + rewrite elem_of_cons, IH. split.
      * intros [->|(f & Hf & Hj & Hr)]; [exists file | exists f];
          (split; [constructor; done|done]).
      * intros (f & [->|Hf]%elem_of_cons & Hj & Hr); [left; congruence|].
        right. by exists f.
    + rewrite IH. split.
      * intros (f & Hf & Hj & Hr). exists f. split; [by constructor|done].
      * intros (f & [->|Hf]%elem_of_cons & Hj & Hr); [congruence|]. by exists f.
    + rewrite IH. split.
      * intros (f & Hf & Hj & Hr). exists f. split; [by constructor|done].
      * intros (f & [->|Hf]%elem_of_cons & Hj & Hr); [congruence|]. by exists f.
Qed.

(** The loop reads exactly the stored values. *)
Lemma elem_of_read_directory d m :
  m ∈ read_memories d (readdir d) ↔ stored d m.
Proof.
  rewrite elem_of_read_memories. unfold stored, read_memory, readFile. split.
  - intros (file & [text Ht]%elem_of_readdir & Hj & Hr). rewrite Ht in Hr.
    by exists file, text.
  - intros (file & text & Ht & Hj & Hp). exists file.
    split; [apply elem_of_readdir; eauto|]. by rewrite Ht.
Qed.

Lemma compare_created_key a b ta tb :
  created_time Date_parse a = Normal (Some ta) →
  created_time Date_parse b = Normal (Some tb) →
  compare_created Date_parse a b
  = Normal (Some (time_of Date_parse b - time_of Date_parse a)%Z).
Proof.
  intros Ha Hb. unfold compare_created, time_of. by rewrite Ha, Hb.
Qed.

Lemma compare_created_returns a b :
  (∃ t, created_time Date_parse a = Normal t) →
  (∃ t, created_time Date_parse b = Normal t) →
  ∃ v, compare_created Date_parse a b = Normal v.
Proof.
  intros [ta Ha] [tb Hb]. unfold compare_created. rewrite Ha, Hb. by eexists.
Qed.

(** C7: for every directory whose stored records have a valid
    [createdAt], [getAllMemories] returns the stored records, each
    one not older than those after it (newest first); records of
    equal time keep the order of the enumeration of the directory,
    and the result is a function of the directory.  Three records
    created at [t1 < t2 < t3] come out in the order [t3, t2, t1]. *)
Theorem getAllMemories_newest_first (d : gmap string file_text) :
  (∀ m, stored d m → ∃ t, created_time Date_parse m = Normal (Some t)) →
  ∃ memories,
    getAllMemories Date_parse d = Normal memories
    ∧ memories ≡ₚ read_memories d (readdir d)
    ∧ StronglySorted (not_older Date_parse) memories
    ∧ (∀ t, filter (λ m, created_time Date_parse m = Normal (Some t)) memories
            = filter (λ m, created_time Date_parse m = Normal (Some t))
                     (read_memories d (readdir d)))
    ∧ (∀ r1 r2 r3 t1 t2 t3,
         read_memories d (readdir d) ≡ₚ [r1; r2; r3] →
         created_time Date_parse r1 = Normal (Some t1) →
         created_time Date_parse r2 = Normal (Some t2) →
         created_time Date_parse r3 = Normal (Some t3) →
         (t1 < t2 < t3)%Z →
         memories = [r3; r2; r1]).
Proof.
  intros Hvalid.
  set (P := λ m, ∃ t, created_time Date_parse m = Normal (Some t)).
  assert (Forall P (read_memories d (readdir d))) as Hall.
  { apply Forall_forall. intros m Hm. by apply Hvalid, elem_of_read_directory. }
  destruct (array_sort_by_key (compare_created Date_parse) P (time_of Date_parse))
    with (l := read_memories d (readdir d))
    as (memories & Hsort & Hperm & Hsorted & Hstable); [|done|].
  { intros a b [ta Ha] [tb Hb]. by eapply compare_created_key. }
  assert (Forall P memories) as Hall' by (by rewrite Hperm).
  assert (∀ m t, P m → created_time Date_parse m = Normal (Some t)
                       ↔ time_of Date_parse m = t) as Htime.
  { intros m t [t' Ht']. unfold time_of. rewrite Ht'. naive_solver. }
  assert (StronglySorted (not_older Date_parse) memories) as Hnewest.
  { clear Hsort Hperm Hstable.
    induction Hsorted as [|a l Hl IH Ha]; [constructor|].
    apply Forall_cons in Hall' as [[ta Hta] Hall'].
    constructor; [by apply IH|].
    apply Forall_forall. intros b Hb.
    pose proof (proj1 (Forall_forall _ _) Ha b Hb) as Hle.
    destruct (proj1 (Forall_forall _ _) Hall' b Hb) as [tb Htb].
    exists ta, tb. repeat split; [done..|].
    unfold descending, time_of in Hle. by rewrite Hta, Htb in Hle. }
  exists memories. split; [done|]. split; [done|]. split; [done|]. split.
  - intros t.
    rewrite (filter_iff_Forall _ (λ m, time_of Date_parse m = t) memories).
    2:{ eapply Forall_impl; [exact Hall'|]. intros m Hm. by apply Htime. }
    rewrite (filter_iff_Forall _ (λ m, time_of Date_parse m = t) (read_memories _ _)).
    2:{ eapply Forall_impl; [exact Hall|]. intros m Hm. by apply Htime. }
    apply Hstable.
  - intros r1 r2 r3 t1 t2 t3 Hthree H1 H2 H3 Hlt.
    apply (StronglySorted_unique_strong (not_older Date_parse)); [|done| |].
    + intros x1 x2 Hx1 Hx2 (ta & tb & Ha & Hb & Hle) (tb' & ta' & Hb' & Ha' & Hle').
      rewrite Ha in Ha'. rewrite Hb in Hb'.
      injection Ha' as <-. injection Hb' as <-.
      assert (ta = tb) as <- by lia.
      rewrite Hperm, Hthree in Hx1.
      repeat match goal with
             | H : _ ∈ _ :: _ |- _ => apply elem_of_cons in H as [->|H]
             | H : _ ∈ [] |- _ => by apply elem_of_nil in H
             end; try done;
        repeat match goal with
               | H1 : created_time _ ?x = _, H2 : created_time _ ?x = _ |- _ =>
                   rewrite H1 in H2; injection H2 as ->
               end; lia.
    + repeat constructor; eexists _, _; (split; [eassumption|]);
        (split; [eassumption|]); lia.
    + rewrite Hperm, Hthree.
      etrans; [apply Permutation_swap|]. etrans; [apply perm_skip, Permutation_swap|].
      apply Permutation_swap.
Qed.

Lemma read_memories_entries d (entries : list (string * file_text)) :
  (∀ file text, (file, text) ∈ entries → d !! file = Some text) →
  read_memories d entries.*1 = omap parsed_entry entries.
Proof.
  induction entries as [|[file text] entries IH]; intros Hd; [done|].
  cbn [fmap list_fmap fst read_memories omap list_omap].
  rewrite IH by (intros f t Hin; apply Hd; by constructor).
  unfold parsed_entry, read_memory, readFile. cbn [fst snd].
  rewrite (Hd file text) by constructor. cbn [mbind completion_bind].
  by destruct (endsWith file ".json"), (JSON_parse text).
Qed.

Lemma read_directory_entries d :
  read_memories d (readdir d) = omap parsed_entry (map_to_list d).
Proof.
  apply read_memories_entries. intros file text. apply elem_of_map_to_list.
Qed.

(** C9: for every directory, whatever files in it fail to parse,
    [getAllMemories] returns (given that the [createdAt] of each
    stored value converts to a time or to NaN) the list of the values
    of the files that parse, one for each such file and none for a
    file that does not parse. *)
Theorem getAllMemories_skips_unparsable (d : gmap string file_text) :
  (∀ m, stored d m → ∃ t, created_time Date_parse m = Normal t) →
  ∃ memories,
    getAllMemories Date_parse d = Normal memories
    ∧ memories ≡ₚ omap parsed_entry (map_to_list d)
    ∧ ∀ m, m ∈ memories ↔ stored d m.
Proof.
  intros Hconv.
  destruct (array_sort_returns (compare_created Date_parse)
              (λ m, ∃ t, created_time Date_parse m = Normal t))
    with (l := read_memories d (readdir d)) as [memories Hsort].
  - apply compare_created_returns.
  - apply Forall_forall. intros m Hm. by apply Hconv, elem_of_read_directory.
  - pose proof (array_sort_Permutation _ _ _ Hsort) as Hperm.
    exists memories. split; [done|]. split.
    + by rewrite Hperm, read_directory_entries.
    + intros m. by rewrite Hperm, elem_of_read_directory.
Qed.

End Enumeration.

(** The three notes come back newest first. *)
Lemma getAllMemories_newest_first_witness :
  getAllMemories three_dates three_notes
  = Normal [third_note; second_note; first_note].
Proof.
  assert (read_memories three_notes (readdir three_notes)
          = [third_note; first_note; second_note]) as Hread
    by (vm_compute; reflexivity).
  destruct (getAllMemories_newest_first three_dates three_notes)
    as (memories & Hget & _ & _ & _ & Hthree).
  - intros m Hm%elem_of_read_directory. rewrite Hread in Hm. clear Hread.
    repeat (apply elem_of_cons in Hm as [->|Hm]); [by eexists..|].
    apply elem_of_nil in Hm. destruct Hm.
  - rewrite Hget. f_equal.
    apply (Hthree first_note second_note third_note
             1704067200000 1704153600000 1704240000000)%Z;
      [|reflexivity..|lia].
    rewrite Hread. etrans; [apply Permutation_swap|]. apply perm_skip, Permutation_swap.
Defined.

(** A file that does not parse is left out and the notes are
    returned. *)
Lemma getAllMemories_skips_unparsable_witness :
  ∃ memories,
    getAllMemories three_dates damaged_notes = Normal memories
    ∧ memories ≡ₚ [first_note; second_note; third_note].
Proof.
  assert (omap parsed_entry (map_to_list damaged_notes)
          = [third_note; first_note; second_note]) as Hread
    by (vm_compute; reflexivity).
  destruct (getAllMemories_skips_unparsable three_dates damaged_notes)
    as (memories & Hget & Hperm & _).
  - intros m Hm%elem_of_read_directory.
    rewrite read_directory_entries, Hread in Hm. clear Hread.
    repeat (apply elem_of_cons in Hm as [->|Hm]); [by eexists..|].
    apply elem_of_nil in Hm. destruct Hm.
  - exists memories. split; [exact Hget|]. rewrite Hperm, Hread.
    etrans; [apply Permutation_swap|]. apply perm_skip, Permutation_swap.
Defined.

(** ** Queries *)

Lemma includes_string (tags : list value) (t : value) :
  Forall (λ x, ∃ s, x = JStr s) tags →
  includes tags t = true ↔ t ∈ tags.
Proof.
  intros Hstr. unfold includes. rewrite existsb_exists. split.
  - intros (x & Hx%list_elem_of_In & Hsame).
    destruct (proj1 (Forall_forall _ _) Hstr x Hx) as [s ->].
    destruct t; try discriminate. cbn [same_value_zero] in Hsame.
    by apply bool_decide_eq_true in Hsame as ->.
  - intros Ht. exists t. split; [by apply list_elem_of_In|].
    destruct (proj1 (Forall_forall _ _) Hstr t Ht) as [s ->].
    cbn [same_value_zero]. by apply bool_decide_eq_true.
Qed.

Lemma has_tag_shares (tags : list value) (m : value) :
  Forall (λ x, ∃ s, x = JStr s) tags →
  tags_well_formed m →
  has_tag tags m = Normal (bool_decide (shares_a_tag tags m)).
Proof.
  intros Hstr [Hm Htags]. unfold has_tag. rewrite get_not_null by done.
  cbn [mbind completion_bind].
  destruct (field "containerTags" m) as [v|] eqn:Hfield.
  - destruct (Htags v eq_refl) as [[ts ->]|Hfalsy].
    + cbn [mret completion_ret]. f_equal. apply eq_bool_prop_intro.
      rewrite Is_true_true, existsb_exists, bool_decide_spec. unfold shares_a_tag.
      rewrite Hfield. split.
      * intros (t & Ht%list_elem_of_In & Hin%includes_string); [|done].
        by exists ts, t.
      * intros (ts' & t & [= <-] & Ht & Hin). exists t.
        split; [by apply list_elem_of_In|]. by apply includes_string.
    + rewrite Hfalsy. rewrite bool_decide_eq_false_2.
      * by destruct v.
      * intros (ts & t & Heq & _). rewrite Hfield in Heq.
        injection Heq as ->. discriminate.
  - rewrite bool_decide_eq_false_2; [done|].
    intros (ts & t & Heq & _). by rewrite Hfield in Heq.
Qed.

(** C6: for every sequence of records whose [containerTags] can be
    filtered and every filter of tags, an absent or empty filter
    retains every record, and a filter that is not empty retains, in
    their order, exactly the records that share a tag with it. *)
Theorem filter_retains_sharing_records (tags : list value) (memories : list value) :
  Forall (λ t, ∃ s, t = JStr s) tags →
  Forall tags_well_formed memories →
  filter_memories None memories = Normal memories
  ∧ filter_memories (Some []) memories = Normal memories
  ∧ (tags ≠ [] →
     filter_memories (Some tags) memories
     = Normal (filter (shares_a_tag tags) memories)).
Proof.
  intros Hstr Hwf. split; [done|]. split; [done|].
  intros Hne. destruct tags as [|t ts]; [done|]. cbn [filter_memories].
  rewrite (array_filter_Normal _ (λ m, bool_decide (shares_a_tag (t :: ts) m))).
  - f_equal. apply list_filter_iff. intros m. apply bool_decide_eq_true.
  - eapply Forall_impl; [exact Hwf|]. intros m Hm. by apply has_tag_shares.
Qed.

(** A record tagged [x] and [y] is retained by the filter [y, z] and
    dropped by the filter [z]. *)
Lemma filter_retains_sharing_records_witness :
  filter_memories (Some [JStr "y"; JStr "z"]) [tagged_note] = Normal [tagged_note]
  ∧ filter_memories (Some [JStr "z"]) [tagged_note] = Normal [].
Proof.
  assert (Forall tags_well_formed [tagged_note]) as Hwf.
  { apply Forall_cons. split; [|constructor]. split; [discriminate|].
    intros v Hv. left. exists [JStr "x"; JStr "y"].
    change (field "containerTags" tagged_note)
      with (Some (JArr [JStr "x"; JStr "y"])) in Hv.
    by injection Hv as <-. }
  assert (∀ tags, Forall (λ t, ∃ s, t = JStr s) (JStr <$> tags)) as Hstr.
  { intros tags. apply Forall_fmap, Forall_forall. intros s _. by exists s. }
  split.
  - rewrite (proj2 (proj2 (filter_retains_sharing_records
                              [JStr "y"; JStr "z"] [tagged_note]
                              (Hstr ["y"; "z"]) Hwf)))
      by discriminate.
    reflexivity.
  - rewrite (proj2 (proj2 (filter_retains_sharing_records
                              [JStr "z"] [tagged_note] (Hstr ["z"]) Hwf)))
      by discriminate.
    reflexivity.
Defined.

Lemma ceil_div_bounds (a b : Z) :
  (1 ≤ b)%Z →
  ∃ n, ceil_div a b = Some n ∧ ((n - 1) * b < a ≤ n * b)%Z.
Proof.
  intros Hb. unfold ceil_div.
  replace (b =? 0)%Z with false by (symmetry; apply Z.eqb_neq; lia).
  eexists. split; [done|].
  pose proof (Z.div_mod (- a) b ltac:(lia)) as Hdiv.
  pose proof (Z.mod_pos_bound (- a) b ltac:(lia)) as Hmod.
  nia.
Qed.

Section Queries.

Variable Date_parse : string → option Z.

(** C5: for every directory and every list request with [page >= 1]
    and [limit >= 1] (each its default when absent) whose enumeration
    and filtering return, the answer is 200; [totalItems] is the
    number of filtered records, [totalPages] is the ceiling of
    [totalItems / limit], and the documents are the records at
    positions [(page-1)*limit] up to, not including,
    [(page-1)*limit + limit] of the filtered sequence, in its order
    (each with its [memoryEntries] emptied).  A page beyond the range
    gives no documents.  With 25 records and a limit of 10 there are
    3 pages, of 10, 10 and 5 documents, and none on page 4. *)
Theorem query_paginates (d : gmap string file_text) (body : list_body)
    (all filtered : list value) (p l : Z) :
  getAllMemories Date_parse d = Normal all →
  filter_memories (containerTags body) all = Normal filtered →
  p = default 1%Z (page body) →
  l = default 10%Z (limit body) →
  (1 ≤ p)%Z →
  (1 ≤ l)%Z →
  let window := take (Z.to_nat l) (drop (Z.to_nat ((p - 1) * l)) filtered) in
  ∃ totalPages : Z,
    post_documents_documents Date_parse d body
      = Json 200 (JObj (list_to_map
          [ ("documents", JArr (with_empty_entries <$> window));
            ("pagination", JObj (list_to_map
              [ ("currentPage", JNum p);
                ("limit", JNum l);
                ("totalItems", JNum (Z.of_nat (length filtered)));
                ("totalPages", JNum totalPages) ])) ]))
    ∧ ((totalPages - 1) * l < Z.of_nat (length filtered) ≤ totalPages * l)%Z
    ∧ Z.of_nat (length window)
      = Z.max 0 (Z.min l (Z.of_nat (length filtered) - (p - 1) * l))
    ∧ ((totalPages < p)%Z → window = [])
    ∧ (length filtered = 25 → l = 10%Z →
         totalPages = 3%Z
         ∧ (p = 1%Z → length window = 10)
         ∧ (p = 3%Z → length window = 5)
         ∧ (p = 4%Z → length window = 0)).
Proof.
  intros Hall Hfiltered -> -> Hp Hl window.
  set (p := default 1%Z (page body)) in *.
  set (l := default 10%Z (limit body)) in *.
  destruct (ceil_div_bounds (Z.of_nat (length filtered)) l Hl) as (n & Hn & Hbounds).
  assert (Z.of_nat (length window)
          = Z.max 0 (Z.min l (Z.of_nat (length filtered) - (p - 1) * l))) as Hlen.
  { unfold window. rewrite length_take, length_drop. nia. }
  exists n. split; [|split; [done|split; [done|split]]].
  - unfold post_documents_documents, list_memories.
    rewrite Hall. cbn [mbind completion_bind]. rewrite Hfiltered.
    cbn [mbind completion_bind mret completion_ret try_catch].
    fold p l. rewrite Hn. cbn [number_json].
    rewrite array_slice_window by nia.
    by replace ((p - 1) * l + l - (p - 1) * l)%Z with l by lia.
  - intros Hbeyond. apply nil_length_inv. nia.
  - intros H25 ->. rewrite H25 in *.
    split; [lia|]. repeat split; intros ->; lia.
Qed.

End Queries.

(** Page 3 of 25 notes, 10 to a page, has 5 documents, and there are
    3 pages. *)
Lemma query_paginates_witness :
  let body := {| page := Some 3%Z; limit := Some 10%Z; containerTags := None |} in
  ∃ docs,
    response_documents (post_documents_documents three_dates (many_notes 25) body)
      = Some docs
    ∧ length docs = 5
    ∧ response_pagination (post_documents_documents three_dates (many_notes 25) body)
        "totalPages" = Some (JNum 3).
Proof.
  intros body.
  pose (all := match getAllMemories three_dates (many_notes 25) with
               | Normal memories => memories
               | Throw => []
               end).
  assert (getAllMemories three_dates (many_notes 25) = Normal all) as Hall
    by (vm_compute; reflexivity).
  assert (length all = 25) as H25 by (vm_compute; reflexivity).
  destruct (query_paginates three_dates (many_notes 25) body all all 3 10)
    as (totalPages & Hresponse & _ & _ & _ & Hexample);
    [exact Hall | reflexivity | reflexivity | reflexivity | lia | lia |].
  destruct (Hexample H25 eq_refl) as (-> & _ & Hthird & _).
  rewrite Hresponse. eexists. split; [reflexivity|].
  split; [|reflexivity].
  rewrite length_fmap. by apply Hthird.
Defined.

(** ** Responses *)

Lemma elem_of_array_slice {A} (a : list A) (b e : Z) (x : A) :
  x ∈ array_slice a b e → x ∈ a.
Proof.
  unfold array_slice. intros Hx.
  eapply elem_of_sublist; [exact Hx|].
  etrans; [apply sublist_take | apply sublist_drop].
Qed.

Lemma elem_of_filter_memories tags memories filtered m :
  filter_memories tags memories = Normal filtered → m ∈ filtered → m ∈ memories.
Proof.
  destruct tags as [[|t ts]|]; cbn [filter_memories].
  - by intros [= <-].
  - intros Hsub%array_filter_sublist Hm. by eapply elem_of_sublist.
  - by intros [= <-].
Qed.

Lemma with_empty_entries_fields (m : value) :
  field "memoryEntries" (with_empty_entries m) = Some (JArr [])
  ∧ ∀ k, k ≠ "memoryEntries" → field k (with_empty_entries m) = own_props (Some m) !! k.
Proof.
  unfold with_empty_entries. cbn [field]. split.
  - by rewrite lookup_insert_eq.
  - intros k Hk. by rewrite lookup_insert_ne.
Qed.

(** A field of a document of a list response is the field of the value
    that was spread, when that value is an object (a record) or a
    value without entries of its own ([null], a boolean, a number). *)
Lemma with_empty_entries_keeps_field (m : value) (k : string) :
  (∀ l, m ≠ JArr l) →
  (∀ s, m ≠ JStr s) →
  k ≠ "memoryEntries" →
  field k (with_empty_entries m) = field k m.
Proof.
  intros Harray Hstring Hk. unfold with_empty_entries. cbn [field].
  rewrite lookup_insert_ne by done.
  destruct m as [| | |s|l|entries]; cbn [own_props field].
  - apply lookup_empty.
  - apply lookup_empty.
  - apply lookup_empty.
  - by destruct (Hstring s).
  - by destruct (Harray l).
  - reflexivity.
Qed.

Section Responses.

Variable Date_parse : string → option Z.

(** C10: every document of a list response comes from a stored value:
    its [memoryEntries] is the empty array, whatever [memoryEntries]
    the stored value has, and every other field of the document is
    the field of the stored record, with the value it is stored with
    (and absent when the record has no such field).  The get of a
    stored record answers the record as it is stored, [memoryEntries]
    included. *)
Theorem list_empties_memoryEntries (d : gmap string file_text) (body : list_body)
    (docs : list value) :
  response_documents (post_documents_documents Date_parse d body) = Some docs →
  Forall (λ doc, ∃ m, stored d m
                      ∧ doc = with_empty_entries m
                      ∧ field "memoryEntries" doc = Some (JArr [])
                      ∧ ((∀ l, m ≠ JArr l) → (∀ s, m ≠ JStr s) →
                         ∀ k, k ≠ "memoryEntries" → field k doc = field k m)
                      ∧ ∀ k, k ≠ "memoryEntries" → field k doc = own_props (Some m) !! k)
         docs
  ∧ ∀ id m, d !! (id +:+ ".json") = Some (Serialized m) →
            get_document d id = Json 200 m.
Proof.
  intros Hdocs. split.
  - unfold post_documents_documents in Hdocs.
    destruct (list_memories Date_parse d body) as [r|] eqn:Hlist; [|done].
    cbn [try_catch] in Hdocs. unfold list_memories in Hlist.
    apply bind_Normal in Hlist as (all & Hall & Hlist).
    apply bind_Normal in Hlist as (filtered & Hfiltered & [= <-]).
    cbn [response_documents field list_to_map foldr uncurry] in Hdocs.
    rewrite lookup_insert_eq in Hdocs. injection Hdocs as <-.
    apply Forall_fmap, Forall_forall. intros m Hm. exists m.
    split; [|split; [done|split; [apply with_empty_entries_fields|split]]].
    + apply elem_of_read_directory.
      rewrite <-(array_sort_Permutation _ _ _ Hall).
      eapply elem_of_filter_memories; [exact Hfiltered|].
      by eapply elem_of_array_slice.
    + intros Harray Hstring k Hk. by apply with_empty_entries_keeps_field.
    + apply with_empty_entries_fields.
  - intros id m Hfile. unfold get_document, readFile. rewrite Hfile.
    by cbn [mbind completion_bind JSON_parse mret completion_ret try_catch].
Qed.

End Responses.

(** A stored record with a memory entry is listed with none and with
    its other fields as they are stored, and fetched with its entry. *)
Lemma list_empties_memoryEntries_witness :
  let d := {[ "a.json" := Serialized note_with_entries ]} in
  let body := {| page := None; limit := None; containerTags := None |} in
  ∃ doc,
    response_documents (post_documents_documents three_dates d body) = Some [doc]
    ∧ field "memoryEntries" doc = Some (JArr [])
    ∧ field "id" doc = Some (JStr "a")
    ∧ field "createdAt" doc = Some (JStr "2024-01-01T00:00:00.000Z")
    ∧ field "title" doc = None
    ∧ get_document d "a" = Json 200 note_with_entries
    ∧ field "memoryEntries" note_with_entries
      = Some (JArr [JObj {[ "memory" := JStr "an entry" ]}]).
Proof.
  intros d body.
  assert (response_documents (post_documents_documents three_dates d body)
          = Some [with_empty_entries note_with_entries]) as Hdocs
    by (vm_compute; reflexivity).
  destruct (list_empties_memoryEntries three_dates d body _ Hdocs) as [Hall Hget].
  clear Hdocs.
  apply Forall_cons in Hall as [(m & Hstored & _ & Hentries & Hfields & _) _].
  destruct Hstored as (file & text & Hfile & _ & Hparse).
  unfold d in Hfile. apply lookup_singleton_Some in Hfile as [_ <-].
  injection Hparse as <-.
  assert (∀ k, k ≠ "memoryEntries" →
            field k (with_empty_entries note_with_entries) = field k note_with_entries)
    as Hkept by (apply Hfields; discriminate).
  exists (with_empty_entries note_with_entries).
  split; [vm_compute; reflexivity|]. split; [exact Hentries|].
  split; [rewrite Hkept by discriminate; reflexivity|].
  split; [rewrite Hkept by discriminate; reflexivity|].
  split; [rewrite Hkept by discriminate; reflexivity|].
  split; [apply Hget; reflexivity|reflexivity].
Defined.

(** ** Deletion *)

(** C8: for every directory and every id, a delete of an id that has
    no file answers [not_found] and changes nothing; a delete of an id
    that has a file succeeds and removes the file; and after a
    successful delete, the get of the id answers [not_found] and a
    second delete of the id answers [not_found] too. *)
Theorem delete_then_not_found (d : gmap string file_text) (id : string) :
  (d !! (id +:+ ".json") = None → delete_document d id = (d, not_found))
  ∧ (is_Some (d !! (id +:+ ".json")) →
     delete_document d id
     = (delete (id +:+ ".json") d, Json 200 (JObj {[ "success" := JBool true ]})))
  ∧ (∀ d' body,
       delete_document d id = (d', Json 200 body) →
       get_document d' id = not_found
       ∧ delete_document d' id = (d', not_found)).
Proof.
  assert (∀ d0 : gmap string file_text, d0 !! (id +:+ ".json") = None →
            delete_document d0 id = (d0, not_found)
            ∧ get_document d0 id = not_found) as Habsent.
  { intros d0 Hnone. unfold delete_document, get_document, unlink, readFile.
    by rewrite Hnone. }
  split; [intros Hnone; by apply Habsent|].
  assert (is_Some (d !! (id +:+ ".json")) →
          delete_document d id
          = (delete (id +:+ ".json") d, Json 200 (JObj {[ "success" := JBool true ]})))
    as Hpresent.
  { intros [text Htext]. unfold delete_document, unlink. by rewrite Htext. }
  split; [done|].
  intros d' body Hdelete.
  destruct (d !! (id +:+ ".json")) as [text|] eqn:Hfile.
  - rewrite Hpresent in Hdelete by done. injection Hdelete as <- _.
    split; apply Habsent, lookup_delete_eq.
  - rewrite (proj1 (Habsent d Hfile)) in Hdelete. discriminate.
Qed.

Lemma delete_then_not_found_witness :
  let d := {[ "a.json" := Serialized typed_memory ]} in
  delete_document d "a" = (∅, Json 200 (JObj {[ "success" := JBool true ]}))
  ∧ get_document ∅ "a" = not_found
  ∧ delete_document ∅ "a" = (∅, not_found).
Proof.
  intros d.
  destruct (delete_then_not_found d "a") as (_ & Hpresent & Hafter).
  assert (delete_document d "a" = (∅, Json 200 (JObj {[ "success" := JBool true ]})))
    as Hdelete.
  { rewrite Hpresent by (by eexists). reflexivity. }
  split; [exact Hdelete|]. exact (Hafter _ _ Hdelete).
Defined.

(** ** Examples *)

Example string_slice_short : string_slice "hello world" 0 50 = "hello world".
Proof. reflexivity. Qed.

Example array_slice_from_end : array_slice [1; 2; 3; 4; 5] (-2) 10 = [4; 5].
Proof. reflexivity. Qed.

Example endsWith_json : endsWith "a.json" ".json" = true ∧ endsWith "json" ".json" = false.
Proof. split; reflexivity. Qed.

Example to_string_array :
  to_string (JArr [JNum 1; JNull; JArr [JStr "a"; JObj ∅]]) = Normal "1,,a,[object Object]".
Proof. reflexivity. Qed.

Example spread_of_array : own_props (Some (JArr [JNum 5; JNum 6])) !! "1" = Some (JNum 6).
Proof. reflexivity. Qed.

(** A link is created with its content as url and as title. *)
Example create_link :
  (post_documents ∅ "a" "2024-01-01T00:00:00.000Z" (note "http://example.com")).2
  = Json 200 (new_memory "a" "2024-01-01T00:00:00.000Z" "http://example.com" None None)
  ∧ field "type" (new_memory "a" "2024-01-01T00:00:00.000Z" "http://example.com" None None)
    = Some (JStr "link")
  ∧ field "url" (new_memory "a" "2024-01-01T00:00:00.000Z" "http://example.com" None None)
    = Some (JStr "http://example.com").
Proof. split; [vm_compute; reflexivity|]. split; reflexivity. Qed.

(** A content that is no string makes [startsWith] throw: nothing is
    stored and the answer is the 500 of the server. *)
Example create_without_content :
  post_documents ∅ "a" "2024-01-01T00:00:00.000Z" (JObj {[ "content" := JNum 5 ]})
  = (∅, ServerError).
Proof. reflexivity. Qed.

(** The payload [null] has no [metadata] to read: the update answers
    [not_found] although the record exists. *)
Example update_with_null :
  patch_document {[ "a.json" := Serialized typed_memory ]} "a"
    "2024-02-01T00:00:00.000Z" JNull
  = ({[ "a.json" := Serialized typed_memory ]}, not_found).
Proof. reflexivity. Qed.

(** Page 1 of two records, one to a page: one document, two pages. *)
Example query_first_of_two :
  let body := {| page := Some 1%Z; limit := Some 1%Z; containerTags := None |} in
  (length <$> response_documents (post_documents_documents three_dates (many_notes 2) body))
  = Some 1
  ∧ response_pagination (post_documents_documents three_dates (many_notes 2) body)
      "totalPages" = Some (JNum 2).
Proof. split; vm_compute; reflexivity. Qed.

(** A file whose text is the JSON [null] parses, and the comparator of
    the sort cannot read its [createdAt]: the enumeration throws. *)
Example getAllMemories_null_file :
  getAllMemories three_dates (<["n.json" := Serialized JNull]> three_notes) = Throw.
Proof. vm_compute. reflexivity. Qed.

(** * Further properties of the handlers *)

(** ** Names of files *)

Lemma string_length_app (s1 s2 : string) :
  String.length (s1 +:+ s2) = String.length s1 + String.length s2.
Proof. induction s1 as [|c s1 IH]; simpl; [done|]. by rewrite IH. Qed.

Lemma substring_whole (s : string) : substring 0 (String.length s) s = s.
Proof. induction s as [|c s IH]; simpl; [done|]. by rewrite IH. Qed.

Lemma substring_app_suffix (s p : string) :
  substring (String.length s) (String.length p) (s +:+ p) = p.
Proof. induction s as [|c s IH]; simpl; [apply substring_whole|done]. Qed.

Lemma endsWith_app (s p : string) : endsWith (s +:+ p) p = true.
Proof.
  unfold endsWith. rewrite string_length_app.
  rewrite decide_True by lia. apply bool_decide_eq_true.
  replace (String.length s + String.length p - String.length p) with (String.length s) by lia.
  apply substring_app_suffix.
Qed.

Lemma substring_split (s : string) (i : nat) :
  i ≤ String.length s →
  s = substring 0 i s +:+ substring i (String.length s - i) s.
Proof.
  revert i. induction s as [|c s IH]; intros [|i] Hi; simpl in *.
  - done.
  - lia.
  - by rewrite substring_whole.
  - change (String c s = String c (substring 0 i s
                                   +:+ substring i (String.length s - i) s)).
    f_equal. apply IH. lia.
Qed.

Lemma endsWith_stem (s p : string) :
  endsWith s p = true → ∃ stem, s = stem +:+ p.
Proof.
  unfold endsWith. case_decide as Hle; [|done].
  intros Hp%bool_decide_eq_true.
  exists (substring 0 (String.length s - String.length p) s).
  etrans; [apply (substring_split s (String.length s - String.length p)); lia|].
  f_equal.
  replace (String.length s - (String.length s - String.length p))
    with (String.length p) by lia.
  exact Hp.
Qed.

Lemma string_app_inj_r (s1 s2 p : string) : s1 +:+ p = s2 +:+ p → s1 = s2.
Proof.
  revert s2. induction s1 as [|c s1 IH]; intros [|c2 s2] Heq.
  - done.
  - apply (f_equal String.length) in Heq.
    rewrite !string_length_app in Heq. simpl in Heq. lia.
  - apply (f_equal String.length) in Heq.
    rewrite !string_length_app in Heq. simpl in Heq. lia.
  - change (String c (s1 +:+ p) = String c2 (s2 +:+ p)) in Heq.
    injection Heq as -> Heq. f_equal. by apply IH.
Qed.

(** ** Creation *)

Lemma post_documents_string d uuid now body content :
  field "content" body = Some (JStr content) →
  post_documents d uuid now body
  = (<[uuid +:+ ".json" :=
         Serialized (new_memory uuid now content
                       (field "containerTags" body) (field "metadata" body))]> d,
     Json 200 (new_memory uuid now content
                 (field "containerTags" body) (field "metadata" body))).
Proof.
  intros Hc. destruct body as [| | | | |m]; try discriminate.
  unfold post_documents, add_document. cbn [get mbind completion_bind].
  rewrite Hc. unfold new_memory.
  erewrite saveMemory_object; [reflexivity|reflexivity].
Qed.

Lemma get_document_stored d id m :
  d !! (id +:+ ".json") = Some (Serialized m) → get_document d id = Json 200 m.
Proof. intros Hfile. unfold get_document, readFile. by rewrite Hfile. Qed.

(** X1: for every create call whose [content] is a string, a get of the
    new id on the directory that the create leaves answers the record
    that the create answered. *)
Theorem create_then_get (d : gmap string file_text) (uuid now : string)
    (body : value) (content : string) :
  field "content" body = Some (JStr content) →
  ∃ memory,
    (post_documents d uuid now body).2 = Json 200 memory
    ∧ get_document (post_documents d uuid now body).1 uuid = Json 200 memory.
Proof.
  intros Hc. rewrite (post_documents_string _ _ _ _ _ Hc). cbn [fst snd].
  eexists. split; [done|]. apply get_document_stored, lookup_insert_eq.
Qed.

Lemma create_then_get_witness :
  ∃ memory,
    (post_documents three_notes "d" "2024-01-03T00:00:00.000Z" (note "fourth")).2
      = Json 200 memory
    ∧ get_document
        (post_documents three_notes "d" "2024-01-03T00:00:00.000Z" (note "fourth")).1 "d"
      = Json 200 memory.
Proof. by apply (create_then_get _ _ _ _ "fourth"). Defined.

(** X2: a create call whose [content] is not a string (absent, [null],
    a number, an array, ...; or a body that is no object) answers the
    500 of the server and writes nothing. *)
Theorem create_needs_string_content (d : gmap string file_text) (uuid now : string)
    (body : value) :
  (∀ content, field "content" body ≠ Some (JStr content)) →
  post_documents d uuid now body = (d, ServerError).
Proof.
  intros Hc. unfold post_documents, add_document.
  destruct body as [| | | | |m]; try done.
  cbn [get mbind completion_bind]. cbn [field] in *.
  destruct (m !! "content") as [[| | |s| |]|]; try done.
  by destruct (Hc s).
Qed.

Lemma create_needs_string_content_witness :
  post_documents three_notes "d" "2024-01-03T00:00:00.000Z"
    (JObj {[ "content" := JArr [JStr "http://example.com"] ]})
  = (three_notes, ServerError).
Proof. apply create_needs_string_content. intros content. by vm_compute. Defined.

(** X3: a successful create followed by the delete of the new id
    leaves the directory as it was, when the id was not in use; the
    delete answers success. *)
Theorem create_then_delete (d : gmap string file_text) (uuid now : string)
    (body : value) (content : string) :
  field "content" body = Some (JStr content) →
  d !! (uuid +:+ ".json") = None →
  delete_document (post_documents d uuid now body).1 uuid
  = (d, Json 200 (JObj {[ "success" := JBool true ]})).
Proof.
  intros Hc Hfresh. rewrite (post_documents_string _ _ _ _ _ Hc). cbn [fst].
  unfold delete_document, unlink. rewrite lookup_insert_eq.
  cbn [mbind completion_bind mret completion_ret try_catch].
  by rewrite delete_insert_eq, delete_id.
Qed.

Lemma create_then_delete_witness :
  delete_document
    (post_documents three_notes "d" "2024-01-03T00:00:00.000Z" (note "fourth")).1 "d"
  = (three_notes, Json 200 (JObj {[ "success" := JBool true ]})).
Proof. apply (create_then_delete _ _ _ _ "fourth"); reflexivity. Defined.

(** X4: a get answers [not_found] exactly when the file of the id is
    absent or does not parse, and otherwise 200 with the stored value;
    it never answers anything else. *)
Theorem get_not_found_iff (d : gmap string file_text) (id : string) :
  (get_document d id = not_found
   ↔ d !! (id +:+ ".json") = None ∨ ∃ raw, d !! (id +:+ ".json") = Some (Malformed raw))
  ∧ (get_document d id = not_found
     ∨ ∃ m, d !! (id +:+ ".json") = Some (Serialized m) ∧ get_document d id = Json 200 m).
Proof.
  unfold get_document, readFile.
  destruct (d !! (id +:+ ".json")) as [[m|raw]|] eqn:Hfile;
    cbn [mbind completion_bind JSON_parse mret completion_ret try_catch].
  - split; [|right; by exists m].
    split; [done|]. intros [?|[? ?]]; done.
  - split; [|by left]. split; [|done]. intros _. right. by exists raw.
  - split; [|by left]. split; [|done]. intros _. by left.
Qed.

(** ** Update *)

Lemma saveMemory_Normal d m d' m' :
  saveMemory d m = Normal (d', m') →
  m' = m
  ∧ ∃ stem, (get m "id" ≫= template) = Normal stem
            ∧ d' = <[stem +:+ ".json" := Serialized m]> d.
Proof.
  unfold saveMemory. intros (id & Hid & (stem & Hstem & [= <- <-])%bind_Normal)%bind_Normal.
  split; [done|]. exists stem. split; [|done]. by rewrite Hid.
Qed.

Lemma own_props_object (m : gmap string value) : own_props (Some (JObj m)) = m.
Proof. done. Qed.

(** A handler that answers 200 is not one that answers 404. *)
Lemma patch_document_200 d id now body d' updated :
  patch_document d id now body = (d', Json 200 updated) →
  ∃ memory, d !! (id +:+ ".json") = Some (Serialized memory)
            ∧ merge_update now memory body = Normal updated
            ∧ saveMemory d updated = Normal (d', updated).
Proof.
  unfold patch_document, update_document, readFile, not_found.
  destruct (d !! (id +:+ ".json")) as [[memory|raw]|] eqn:Hfile;
    cbn [mbind completion_bind JSON_parse try_catch]; [|intros [=]..].
  destruct (merge_update now memory body) as [merged|] eqn:Hmerge;
    cbn [mbind completion_bind try_catch]; [|intros [=]].
  destruct (saveMemory d merged) as [[d1 m1]|] eqn:Hsave;
    cbn [mbind completion_bind mret completion_ret try_catch]; [|intros [=]].
  intros [= <- <-]. exists memory.
  by destruct (saveMemory_Normal _ _ _ _ Hsave) as [-> _].
Qed.

(** The update in place: the payload supplies no [id] and the record
    has the id of the path. *)
Lemma patch_document_in_place d id now body (record : gmap string value) :
  d !! (id +:+ ".json") = Some (Serialized (JObj record)) →
  record !! "id" = Some (JStr id) →
  body ≠ JNull →
  own_props (Some body) !! "id" = None →
  patch_document d id now body
  = (<[id +:+ ".json" :=
         Serialized (JObj (<["updatedAt" := JStr now]>
           (<["metadata" := JObj (own_props (field "metadata" body)
                                  ∪ own_props (record !! "metadata"))]>
           (own_props (Some body) ∪ record))))]> d,
     Json 200 (JObj (<["updatedAt" := JStr now]>
           (<["metadata" := JObj (own_props (field "metadata" body)
                                  ∪ own_props (record !! "metadata"))]>
           (own_props (Some body) ∪ record))))).
Proof.
  intros Hfile Hid Hbody Hnone.
  unfold patch_document, update_document, readFile. rewrite Hfile.
  cbn [mbind completion_bind JSON_parse].
  rewrite merge_update_Normal by done. cbn [mbind completion_bind].
  erewrite saveMemory_object; [reflexivity|].
  rewrite !lookup_insert_ne by done.
  rewrite lookup_union, Hnone. cbn [own_props]. by rewrite Hid.
Qed.

(** X5: an update answers [not_found] and leaves the directory as it
    is when the file of the id is absent or does not parse, when it
    holds [null], and when the payload is [null] (even though the
    record exists). *)
Theorem update_not_found (d : gmap string file_text) (id now : string) (body : value) :
  d !! (id +:+ ".json") = None
  ∨ (∃ raw, d !! (id +:+ ".json") = Some (Malformed raw))
  ∨ d !! (id +:+ ".json") = Some (Serialized JNull)
  ∨ body = JNull →
  patch_document d id now body = (d, not_found).
Proof.
  unfold patch_document, update_document, readFile.
  intros [Hfile|[[raw Hfile]|[Hfile| ->]]]; try (by rewrite Hfile).
  destruct (d !! (id +:+ ".json")) as [[memory|raw]|]; [|done..].
  cbn [mbind completion_bind JSON_parse]. unfold merge_update.
  by destruct memory.
Qed.

Lemma update_not_found_witness :
  patch_document three_notes "a" "2024-01-04T00:00:00.000Z" JNull
  = (three_notes, not_found).
Proof. apply update_not_found. by do 3 right. Defined.

(** X6: whenever an update answers 200, the record it answers is the
    one that a get of the id of that record (the string of the [id]
    it now has) answers on the directory that the update leaves. *)
Theorem update_then_get (d d' : gmap string file_text) (id now : string)
    (body updated : value) :
  patch_document d id now body = (d', Json 200 updated) →
  ∃ stem, (get updated "id" ≫= template) = Normal stem
          ∧ get_document d' stem = Json 200 updated.
Proof.
  intros (memory & _ & _ & Hsave)%patch_document_200.
  destruct (saveMemory_Normal _ _ _ _ Hsave) as (_ & stem & Hstem & ->).
  exists stem. split; [done|]. apply get_document_stored, lookup_insert_eq.
Qed.

Lemma update_then_get_witness :
  ∃ stem, (get rekeyed_memory "id" ≫= template) = Normal stem
          ∧ get_document
              (<["b.json" := Serialized rekeyed_memory]>
                 {[ "a.json" := Serialized typed_memory ]}) stem
            = Json 200 rekeyed_memory.
Proof.
  apply (update_then_get {[ "a.json" := Serialized typed_memory ]} _ "a"
           "2024-02-01T00:00:00.000Z" rekeying_payload).
  vm_compute. reflexivity.
Defined.

(** X7: two updates in place, one after the other, leave the directory
    and answer the record that the single update with the combined
    payload does at the time of the second: top-level entries of the
    second payload win over those of the first, and so do the entries
    of its [metadata]. *)
Theorem two_updates_combine (d : gmap string file_text) (id now1 now2 : string)
    (record : gmap string value) (body1 body2 : value) :
  d !! (id +:+ ".json") = Some (Serialized (JObj record)) →
  record !! "id" = Some (JStr id) →
  body1 ≠ JNull →
  body2 ≠ JNull →
  own_props (Some body1) !! "id" = None →
  own_props (Some body2) !! "id" = None →
  patch_document (patch_document d id now1 body1).1 id now2 body2
  = patch_document d id now2 (combined_payload body1 body2).
Proof.
  intros Hfile Hid Hb1 Hb2 Hn1 Hn2.
  rewrite (patch_document_in_place d id now1 body1 record) by done. cbn [fst].
  erewrite (patch_document_in_place _ id now2 body2);
    [|apply lookup_insert_eq| |done|done].
  2:{ rewrite !lookup_insert_ne by done. by rewrite lookup_union, Hn1, Hid. }
  rewrite (patch_document_in_place d id now2 (combined_payload body1 body2) record);
    [|done|done|done|].
  2:{ unfold combined_payload. rewrite own_props_object.
      rewrite lookup_insert_ne by done. by rewrite lookup_union, Hn2, Hn1. }
  rewrite insert_insert_eq.
  assert (∀ A B : value, A = B → (<[id +:+ ".json" := Serialized A]> d, Json 200 A)
                                  = (<[id +:+ ".json" := Serialized B]> d, Json 200 B))
    as Hsame by (by intros A B ->).
  apply Hsame. f_equal. apply map_eq. intros k.
  unfold combined_payload. cbn [field]. rewrite !own_props_object.
  destruct (decide (k = "updatedAt")) as [->|Hu]; [by rewrite !lookup_insert_eq|].
  rewrite !(lookup_insert_ne _ "updatedAt") by done.
  destruct (decide (k = "metadata")) as [->|Hm].
  - rewrite !lookup_insert_eq, !own_props_object. by rewrite (assoc_L (∪)).
  - rewrite !(lookup_insert_ne _ "metadata") by done.
    rewrite !lookup_union.
    rewrite !lookup_insert_ne by done. rewrite !lookup_union.
    by destruct (own_props (Some body2) !! k), (own_props (Some body1) !! k),
         (record !! k).
Qed.

Lemma two_updates_combine_witness :
  patch_document
    (patch_document {[ "a.json" := Serialized typed_memory ]} "a"
       "2024-02-01T00:00:00.000Z" merged_payload).1
    "a" "2024-03-01T00:00:00.000Z" nested_payload
  = patch_document {[ "a.json" := Serialized typed_memory ]} "a"
      "2024-03-01T00:00:00.000Z" (combined_payload merged_payload nested_payload).
Proof.
  apply (two_updates_combine _ _ _ _
           (list_to_map
              [ ("id", JStr "a");
                ("type", JStr "note");
                ("createdAt", JStr "2024-01-01T00:00:00.000Z");
                ("metadata", JObj ∅) ]));
    try reflexivity; discriminate.
Defined.

(** ** What a request leaves alone *)

Lemma get_document_ext d1 d2 id :
  d1 !! (id +:+ ".json") = d2 !! (id +:+ ".json") →
  get_document d1 id = get_document d2 id.
Proof. intros Heq. unfold get_document, readFile. by rewrite Heq. Qed.

Lemma post_documents_cases d uuid now body :
  post_documents d uuid now body = (d, ServerError)
  ∨ ∃ memory,
      post_documents d uuid now body
      = (<[uuid +:+ ".json" := Serialized memory]> d, Json 200 memory)
      ∧ (get memory "id" ≫= template) = Normal uuid.
Proof.
  destruct (field "content" body) as [[| | |content| |]|] eqn:Hc.
  4:{ right. eexists. split; [by apply post_documents_string|reflexivity]. }
  all: left; unfold post_documents, add_document;
    destruct body as [| | | | |entries]; try done;
    cbn [get mbind completion_bind]; by rewrite Hc.
Qed.

Lemma patch_document_cases d id now body :
  patch_document d id now body = (d, not_found)
  ∨ ∃ d' updated, patch_document d id now body = (d', Json 200 updated).
Proof.
  unfold patch_document.
  destruct (update_document d id now body) as [[d' r]|] eqn:Hupdate; [|by left].
  right. unfold update_document in Hupdate.
  apply bind_Normal in Hupdate as (content & _ & Hupdate).
  apply bind_Normal in Hupdate as (memory & _ & Hupdate).
  apply bind_Normal in Hupdate as (merged & _ & Hupdate).
  apply bind_Normal in Hupdate as ([d1 m1] & _ & [= <- <-]).
  by eexists _, _.
Qed.

Lemma delete_document_directory d id :
  (delete_document d id).1 = delete (id +:+ ".json") d.
Proof.
  unfold delete_document, unlink.
  destruct (d !! (id +:+ ".json")) eqn:Hfile; cbn; [done|].
  by rewrite delete_id.
Qed.

(** X8: a create, a delete and an update in place of one id leave what
    a get of any other id answers as it was. *)
Theorem other_ids_untouched (d : gmap string file_text) (id other : string) :
  other ≠ id →
  (∀ now body,
     get_document (post_documents d id now body).1 other = get_document d other)
  ∧ get_document (delete_document d id).1 other = get_document d other
  ∧ (∀ now body (record : gmap string value),
       d !! (id +:+ ".json") = Some (Serialized (JObj record)) →
       record !! "id" = Some (JStr id) →
       own_props (Some body) !! "id" = None →
       get_document (patch_document d id now body).1 other = get_document d other).
Proof.
  intros Hother.
  assert (id +:+ ".json" ≠ other +:+ ".json") as Hname.
  { intros Heq%string_app_inj_r. done. }
  split; [|split].
  - intros now body. apply get_document_ext.
    destruct (post_documents_cases d id now body) as [->|(memory & -> & _)]; [done|].
    cbn [fst]. by rewrite lookup_insert_ne.
  - apply get_document_ext. rewrite delete_document_directory.
    by rewrite lookup_delete_ne.
  - intros now body record Hfile Hid Hnone. apply get_document_ext.
    destruct (decide (body = JNull)) as [->|Hbody].
    + unfold patch_document, update_document, readFile. rewrite Hfile. done.
    + rewrite (patch_document_in_place d id now body record) by done.
      cbn [fst]. by rewrite lookup_insert_ne.
Qed.

Lemma other_ids_untouched_witness :
  get_document (delete_document three_notes "a").1 "b" = get_document three_notes "b".
Proof. by apply (other_ids_untouched three_notes "a" "b"). Defined.

(** ** Upload *)

Lemma post_documents_file_cases files_dir files d uuid now form :
  post_documents_file files_dir files d uuid now form = (files, d, no_file)
  ∨ (∃ file,
       form_file form = Some (FilePart file)
       ∧ post_documents_file files_dir files d uuid now form
         = (<[uuid +:+ "-" +:+ file_name file := file_bytes file]> files, d, ServerError))
  ∨ (∃ file memory,
       form_file form = Some (FilePart file)
       ∧ post_documents_file files_dir files d uuid now form
         = (<[uuid +:+ "-" +:+ file_name file := file_bytes file]> files,
            <[uuid +:+ ".json" := Serialized memory]> d, Json 200 memory)
       ∧ (get memory "id" ≫= template) = Normal uuid).
Proof.
  unfold post_documents_file.
  destruct (form_file form) as [[file|text]|]; [|by left..].
  right.
  destruct (parse_or (form_containerTags form) (JArr [])) as [containerTags|];
    [|left; by exists file].
  destruct (parse_or (form_metadata form) (JObj ∅)) as [metadata|];
    [|left; by exists file].
  right. exists file. eexists. split; [done|].
  cbn [mbind completion_bind]. unfold file_memory.
  erewrite saveMemory_object; [|reflexivity]. split; reflexivity.
Qed.

(** X11: an upload without a file part (no [file] entry, or a text
    under [file]) answers 400 and writes neither a file nor a record. *)
Theorem upload_needs_file (files_dir : string) (files : gmap string (list Byte.byte))
    (d : gmap string file_text) (uuid now : string) (form : upload_form) :
  (∀ file, form_file form ≠ Some (FilePart file)) →
  post_documents_file files_dir files d uuid now form = (files, d, no_file).
Proof.
  intros Hfile. unfold post_documents_file.
  destruct (form_file form) as [[file|text]|]; [|done..]. by destruct (Hfile file).
Qed.

Lemma upload_needs_file_witness :
  post_documents_file "/data/files" ∅ three_notes "d" "2024-01-04T00:00:00.000Z"
    {| form_file := Some (TextPart "hello"); form_containerTags := None;
       form_metadata := None |}
  = (∅, three_notes, no_file).
Proof. by apply upload_needs_file. Defined.

(** X12: an upload of a file whose [containerTags] and [metadata]
    texts, when given and not empty, parse: the bytes are written
    under [<id>-<name>], the answer is 200 with a record of type
    [file], empty content, no url and the name of the file as title,
    and a get of the id answers that record.  Its metadata holds the
    name, the size, the MIME type and the path of the file, which win
    over entries of these names in the metadata of the request; every
    other entry of the metadata of the request is kept. *)
Theorem upload_stores_file (files_dir : string) (files : gmap string (list Byte.byte))
    (d : gmap string file_text) (uuid now : string) (form : upload_form)
    (file : File) (containerTags metadata : value) :
  form_file form = Some (FilePart file) →
  parse_or (form_containerTags form) (JArr []) = Normal containerTags →
  parse_or (form_metadata form) (JObj ∅) = Normal metadata →
  ∃ files' d' memory entries,
    post_documents_file files_dir files d uuid now form = (files', d', Json 200 memory)
    ∧ files' !! (uuid +:+ "-" +:+ file_name file) = Some (file_bytes file)
    ∧ (∀ name, name ≠ uuid +:+ "-" +:+ file_name file → files' !! name = files !! name)
    ∧ get_document d' uuid = Json 200 memory
    ∧ field "type" memory = Some (JStr "file")
    ∧ field "content" memory = Some (JStr EmptyString)
    ∧ field "url" memory = Some JNull
    ∧ field "title" memory = Some (JStr (file_name file))
    ∧ field "containerTags" memory = Some containerTags
    ∧ field "metadata" memory = Some (JObj entries)
    ∧ entries !! "fileName" = Some (JStr (file_name file))
    ∧ entries !! "fileSize" = Some (JNum (Z.of_nat (length (file_bytes file))))
    ∧ entries !! "mimeType" = Some (JStr (file_type file))
    ∧ entries !! "localPath"
      = Some (JStr (files_dir +:+ "/" +:+ uuid +:+ "-" +:+ file_name file))
    ∧ ∀ k, k ≠ "fileName" → k ≠ "fileSize" → k ≠ "mimeType" → k ≠ "localPath" →
           entries !! k = own_props (Some metadata) !! k.
Proof.
  intros Hfile Htags Hmetadata.
  eexists _, _, _, _. split.
  { unfold post_documents_file. rewrite Hfile, Htags, Hmetadata.
    cbn [mbind completion_bind]. unfold file_memory.
    erewrite saveMemory_object; [|reflexivity]. reflexivity. }
  split; [apply lookup_insert_eq|].
  split; [intros name Hname; by apply lookup_insert_ne|].
  split; [apply get_document_stored, lookup_insert_eq|].
  do 6 (split; [reflexivity|]).
  do 3 (split; [rewrite !lookup_insert_ne by done; by rewrite lookup_insert_eq|]).
  split; [by rewrite lookup_insert_eq|].
  intros k H1 H2 H3 H4. by rewrite !lookup_insert_ne.
Qed.

Lemma upload_stores_file_witness :
  ∃ files' d' memory entries,
    post_documents_file "/data/files" ∅ three_notes "d" "2024-01-04T00:00:00.000Z"
      hello_form = (files', d', Json 200 memory)
    ∧ files' !! "d-hello.txt" = Some [Byte.x68; Byte.x69]
    ∧ get_document d' "d" = Json 200 memory
    ∧ field "metadata" memory = Some (JObj entries)
    ∧ entries !! "fileName" = Some (JStr "hello.txt")
    ∧ entries !! "fileSize" = Some (JNum 2)
    ∧ entries !! "localPath" = Some (JStr "/data/files/d-hello.txt")
    ∧ entries !! "author" = Some (JStr "me").
Proof.
  destruct (upload_stores_file "/data/files" ∅ three_notes "d"
              "2024-01-04T00:00:00.000Z" hello_form hello_file
              (JArr [JStr "x"; JStr "y"])
              (JObj (list_to_map
                 [ ("fileName", JStr "other.txt"); ("author", JStr "me") ])))
    as (files' & d' & memory & entries & Hpost & Hbytes & _ & Hget & _ & _ & _ & _ & _
        & Hmeta & Hname & Hsize & _ & Hpath & Hrest);
    [reflexivity..|].
  exists files', d', memory, entries.
  split; [exact Hpost|]. split; [exact Hbytes|]. split; [exact Hget|].
  split; [exact Hmeta|]. split; [exact Hname|]. split; [exact Hsize|].
  split; [exact Hpath|]. by rewrite Hrest.
Defined.

(** X13: an upload of a file with a [containerTags] or [metadata] text
    that is not empty and does not parse answers the 500 of the
    server and stores no record, but the bytes are already written
    under [<id>-<name>]. *)
Theorem upload_leaves_file_on_error (files_dir : string)
    (files : gmap string (list Byte.byte)) (d : gmap string file_text)
    (uuid now : string) (form : upload_form) (file : File) :
  form_file form = Some (FilePart file) →
  parse_or (form_containerTags form) (JArr []) = Throw
  ∨ parse_or (form_metadata form) (JObj ∅) = Throw →
  post_documents_file files_dir files d uuid now form
  = (<[uuid +:+ "-" +:+ file_name file := file_bytes file]> files, d, ServerError).
Proof.
  intros Hfile Hthrow. unfold post_documents_file. rewrite Hfile.
  destruct Hthrow as [->| ->]; [done|].
  by destruct (parse_or (form_containerTags form) (JArr [])).
Qed.

Lemma upload_leaves_file_on_error_witness :
  post_documents_file "/data/files" ∅ three_notes "d" "2024-01-04T00:00:00.000Z"
    {| form_file := Some (FilePart hello_file);
       form_containerTags := Some (Malformed "x, y");
       form_metadata := None |}
  = ({[ "d-hello.txt" := [Byte.x68; Byte.x69] ]}, three_notes, ServerError).
Proof.
  rewrite (upload_leaves_file_on_error _ _ _ _ _ _ hello_file);
    [reflexivity | done | by left].
Defined.

(** ** The names of the files *)

Lemma named_by_id_insert d stem m :
  named_by_id d →
  (get m "id" ≫= template) = Normal stem →
  named_by_id (<[stem +:+ ".json" := Serialized m]> d).
Proof.
  intros Hd Hstem name m' Hfile.
  destruct (decide (name = stem +:+ ".json")) as [->|Hne].
  - rewrite lookup_insert_eq in Hfile. injection Hfile as <-. by exists stem.
  - rewrite lookup_insert_ne in Hfile by done. by apply Hd.
Qed.

Lemma named_by_id_delete d name : named_by_id d → named_by_id (delete name d).
Proof.
  intros Hd name' m Hfile. apply Hd.
  by apply lookup_delete_Some in Hfile as [_ Hfile].
Qed.

(** X9: every request that writes (create, upload, update, delete)
    keeps the files named after the ids of the records they hold: the
    name of a file that holds a value is the string of the [id] of the
    value followed by [.json], also after an update that changes the
    [id]. *)
Theorem requests_keep_names (s : gmap string (list Byte.byte) * gmap string file_text)
    (requests : list request) :
  named_by_id s.2 → named_by_id (serve_all s requests).2.
Proof.
  revert s. induction requests as [|r requests IH]; intros s Hs; [done|].
  cbn [serve_all foldl]. apply IH. destruct r as [uuid now body|files_dir uuid now form|id now body|id];
    cbn [serve snd].
  - destruct (post_documents_cases s.2 uuid now body) as [->|(memory & -> & Hid)];
      [done|]. by apply named_by_id_insert.
  - destruct (post_documents_file_cases files_dir s.1 s.2 uuid now form)
      as [->|[(file & _ & ->)|(file & memory & _ & -> & Hid)]]; [done..|].
    by apply named_by_id_insert.
  - destruct (patch_document_cases s.2 id now body) as [->|(d' & updated & Hpatch)];
      [done|]. rewrite Hpatch.
    apply patch_document_200 in Hpatch as (memory & _ & _ & Hsave).
    destruct (saveMemory_Normal _ _ _ _ Hsave) as (_ & stem & Hstem & ->).
    by apply named_by_id_insert.
  - rewrite delete_document_directory. by apply named_by_id_delete.
Qed.

Lemma requests_keep_names_witness :
  named_by_id
    (serve_all (∅, ∅)
       [ Create "a" "2024-01-01T00:00:00.000Z" (note "first");
         Update "a" "2024-02-01T00:00:00.000Z" rekeying_payload;
         Delete "a" ]).2.
Proof.
  apply requests_keep_names. intros name m Hfile.
  cbn [snd] in Hfile. by rewrite lookup_empty in Hfile.
Defined.

(** X10: the values that the enumeration reads are the values that a
    get can answer: a value is stored in the directory exactly when
    the get of some id answers 200 with it. *)
Theorem stored_iff_get (d : gmap string file_text) (m : value) :
  stored d m ↔ ∃ id, get_document d id = Json 200 m.
Proof.
  split.
  - intros (file & text & Hfile & (id & ->)%endsWith_stem & Hparse).
    destruct text as [m'|raw]; [|done]. injection Hparse as ->.
    exists id. by apply get_document_stored.
  - intros [id Hget]. unfold get_document, readFile in Hget.
    destruct (d !! (id +:+ ".json")) as [[m'|raw]|] eqn:Hfile;
      cbn in Hget; try done.
    injection Hget as ->. exists (id +:+ ".json"), (Serialized m).
    split; [done|]. split; [apply endsWith_app|done].
Qed.

(** ** Pages *)

Lemma array_slice_length {A} (a : list A) (b e : Z) :
  (b ≤ e)%Z → (Z.of_nat (length (array_slice a b e)) ≤ e - b)%Z.
Proof.
  intros Hbe. unfold array_slice, clamp_index. rewrite length_take, length_drop.
  destruct (Z.ltb_spec b 0), (Z.ltb_spec e 0); lia.
Qed.

Lemma array_slice_to_zero {A} (a : list A) (b : Z) : array_slice a b 0 = [].
Proof.
  unfold array_slice, clamp_index. replace (0 <? 0)%Z with false by done.
  replace (Z.to_nat _) with 0; [done|].
  destruct (Z.ltb_spec b 0); lia.
Qed.

Lemma array_slice_empty_window {A} (a : list A) (b : Z) : array_slice a b b = [].
Proof.
  apply nil_length_inv. pose proof (array_slice_length a b b). lia.
Qed.

Lemma page_windows_concat {A} (l : list A) (limit first : Z) (count : nat) :
  (1 ≤ limit)%Z → (1 ≤ first)%Z →
  concat (page_windows l limit first count)
  = take (count * Z.to_nat limit) (drop (Z.to_nat ((first - 1) * limit)) l).
Proof.
  intros Hlimit. revert first. induction count as [|count IH]; intros first Hfirst.
  - by rewrite take_0.
  - cbn [page_windows concat]. rewrite IH by lia.
    rewrite array_slice_window by nia.
    replace ((first - 1) * limit + limit - (first - 1) * limit)%Z with limit by lia.
    replace (Z.to_nat ((first + 1 - 1) * limit))
      with (Z.to_nat ((first - 1) * limit) + Z.to_nat limit) by nia.
    rewrite <-drop_drop. rewrite take_take_drop. f_equal; lia.
Qed.

(** X14: with a limit of at least 1, the windows that the list request
    cuts for the pages 1, 2, ..., n put one after the other are the
    list itself, when n pages are enough to hold it: the pages overlap
    nowhere and leave nothing out. *)
Theorem pages_partition {A} (l : list A) (limit : Z) (pages : nat) :
  (1 ≤ limit)%Z →
  (Z.of_nat (length l) ≤ Z.of_nat pages * limit)%Z →
  concat (page_windows l limit 1 pages) = l.
Proof.
  intros Hlimit Hpages. rewrite page_windows_concat by lia.
  cbn [Z.to_nat]. rewrite drop_0. apply take_ge. nia.
Qed.

Lemma pages_partition_witness :
  concat (page_windows [1; 2; 3; 4; 5] 2 1 3) = [1; 2; 3; 4; 5].
Proof. apply pages_partition; cbn; lia. Defined.

Lemma array_filter_Throw {A} (p : A → completion bool) (l : list A) (x : A) :
  x ∈ l → p x = Throw → array_filter p l = Throw.
Proof.
  intros Hx Hthrow. induction l as [|y l IH]; [by apply elem_of_nil in Hx|].
  cbn [array_filter]. apply elem_of_cons in Hx as [<-|Hx].
  - by rewrite Hthrow.
  - rewrite IH by done. by destruct (p y).
Qed.

Section Listing.

Variable Date_parse : string → option Z.

Lemma list_response_documents d body docs :
  response_documents (post_documents_documents Date_parse d body) = Some docs →
  ∃ all filtered,
    getAllMemories Date_parse d = Normal all
    ∧ filter_memories (containerTags body) all = Normal filtered
    ∧ post_documents_documents Date_parse d body
      = Json 200 (JObj (list_to_map
          [ ("documents", JArr docs);
            ("pagination", JObj (list_to_map
              [ ("currentPage", JNum (default 1%Z (page body)));
                ("limit", JNum (default 10%Z (limit body)));
                ("totalItems", JNum (Z.of_nat (length filtered)));
                ("totalPages",
                 number_json (ceil_div (Z.of_nat (length filtered))
                                (default 10%Z (limit body)))) ])) ]))
    ∧ docs = with_empty_entries
             <$> array_slice filtered
                   ((default 1%Z (page body) - 1) * default 10%Z (limit body))
                   ((default 1%Z (page body) - 1) * default 10%Z (limit body)
                    + default 10%Z (limit body)).
Proof.
  unfold post_documents_documents.
  destruct (list_memories Date_parse d body) as [r|] eqn:Hlist; [|done].
  cbn [try_catch]. unfold list_memories in Hlist.
  apply bind_Normal in Hlist as (all & Hall & Hlist).
  apply bind_Normal in Hlist as (filtered & Hfiltered & [= <-]).
  intros Hdocs. cbn [response_documents field list_to_map foldr uncurry] in Hdocs.
  rewrite lookup_insert_eq in Hdocs. injection Hdocs as <-.
  by exists all, filtered.
Qed.

(** X15: for a limit that is not negative, a list response never holds
    more documents than the limit, whatever the page (zero and
    negative pages included). *)
Theorem list_holds_at_most_limit (d : gmap string file_text) (body : list_body)
    (docs : list value) :
  response_documents (post_documents_documents Date_parse d body) = Some docs →
  (0 ≤ default 10%Z (limit body))%Z →
  (Z.of_nat (length docs) ≤ default 10%Z (limit body))%Z.
Proof.
  intros (all & filtered & _ & _ & _ & ->)%list_response_documents Hlimit.
  rewrite length_fmap.
  etrans; [apply array_slice_length; lia|]. lia.
Qed.

(** X16: the inputs that the list request does not check: page 0 gives
    no documents, whatever the limit; a limit of 0 gives no documents
    and a [totalPages] of [null] (the division by zero does not make a
    number of JSON). *)
Theorem list_page_zero_limit_zero (d : gmap string file_text) (body : list_body)
    (docs : list value) :
  response_documents (post_documents_documents Date_parse d body) = Some docs →
  (default 1%Z (page body) = 0%Z → docs = [])
  ∧ (default 10%Z (limit body) = 0%Z →
     docs = []
     ∧ response_pagination (post_documents_documents Date_parse d body) "totalPages"
       = Some JNull).
Proof.
  intros (all & filtered & _ & _ & Hresponse & ->)%list_response_documents. split.
  - intros ->.
    replace ((0 - 1) * default 10%Z (limit body) + default 10%Z (limit body))%Z
      with 0%Z by lia.
    by rewrite array_slice_to_zero.
  - intros Hzero. rewrite Hresponse, Hzero. split.
    + replace ((default 1%Z (page body) - 1) * 0 + 0)%Z
        with ((default 1%Z (page body) - 1) * 0)%Z by lia.
      by rewrite array_slice_empty_window.
    + reflexivity.
Qed.

(** X17: a stored record whose [containerTags] is truthy and no array
    (a create keeps such a value as it is given) makes every list
    request with a filter that is not empty answer the 500 of the
    server. *)
Theorem list_fails_on_tags_no_array (d : gmap string file_text) (body : list_body)
    (all : list value) (m v t : value) (ts : list value) :
  getAllMemories Date_parse d = Normal all →
  m ∈ all →
  field "containerTags" m = Some v →
  truthy v = true →
  (∀ tags, v ≠ JArr tags) →
  containerTags body = Some (t :: ts) →
  post_documents_documents Date_parse d body = ServerError.
Proof.
  intros Hall Hm Hfield Htruthy Harray Hfilter.
  unfold post_documents_documents, list_memories.
  rewrite Hall, Hfilter. cbn [mbind completion_bind filter_memories].
  rewrite (array_filter_Throw _ _ m); [done|done|].
  unfold has_tag. destruct m; try done. cbn [get mbind completion_bind].
  rewrite Hfield.
  destruct v as [| | | |tags|]; try (by rewrite Htruthy). by destruct (Harray tags).
Qed.

End Listing.

Lemma omap_two {A B} (f : A → option B) (l : list A) (x y : A) (a b : B) :
  x ∈ l → y ∈ l → x ≠ y → f x = Some a → f y = Some b → 2 ≤ length (omap f l).
Proof.
  intros Hx Hy Hne Hfx Hfy.
  apply list_elem_of_split in Hx as (l1 & l2 & ->).
  rewrite omap_app, length_app. cbn [omap list_omap]. rewrite Hfx. cbn [length].
  apply elem_of_app in Hy as [Hy|[?|Hy]%elem_of_cons]; [|done|].
  - apply list_elem_of_split in Hy as (l3 & l4 & ->).
    rewrite omap_app, length_app. cbn [omap list_omap]. rewrite Hfy. cbn [length]. lia.
  - apply list_elem_of_split in Hy as (l3 & l4 & ->).
    rewrite omap_app, length_app. cbn [omap list_omap]. rewrite Hfy. cbn [length]. lia.
Qed.

Section Listing2.

Variable Date_parse : string → option Z.

Lemma compare_created_null_l m : compare_created Date_parse JNull m = Throw.
Proof. unfold compare_created. by destruct (created_time Date_parse m). Qed.

Lemma compare_created_null_r m : compare_created Date_parse m JNull = Throw.
Proof. done. Qed.

Lemma array_sort_null (l : list value) :
  JNull ∈ l → 2 ≤ length l → array_sort (compare_created Date_parse) l = Throw.
Proof.
  induction l as [|x l IH]; [by intros ?%elem_of_nil|].
  intros Hnull Hlen. cbn [array_sort length] in *.
  destruct (decide (JNull ∈ l)) as [Hin|Hnotin].
  - destruct l as [|y [|z l]].
    + by apply elem_of_nil in Hin.
    + apply list_elem_of_singleton in Hin as <-. cbn [array_sort insert_by mbind completion_bind mret completion_ret].
      by rewrite compare_created_null_r.
    + rewrite IH; [done|done|cbn [length]; lia].
  - apply elem_of_cons in Hnull as [<-|?]; [|done].
    destruct (array_sort (compare_created Date_parse) l) as [s|] eqn:Hsort; [|done].
    cbn [mbind completion_bind].
    pose proof (array_sort_Permutation _ _ _ Hsort) as Hperm.
    destruct s as [|y s].
    + apply Permutation_length in Hperm. cbn [length] in Hperm. lia.
    + cbn [insert_by]. by rewrite compare_created_null_l.
Qed.

(** X18: a file named [*.json] that holds the JSON text [null] parses
    and is not skipped; as soon as one more file is read, the
    comparator of the sort reads the [createdAt] of [null], and the
    enumeration and both list requests fail. *)
Theorem null_file_fails_listing (d : gmap string file_text) (file other : string)
    (m : value) (body : list_body) (ids : list value) :
  d !! file = Some (Serialized JNull) →
  d !! other = Some (Serialized m) →
  file ≠ other →
  endsWith file ".json" = true →
  endsWith other ".json" = true →
  getAllMemories Date_parse d = Throw
  ∧ post_documents_documents Date_parse d body = ServerError
  ∧ post_documents_by_ids Date_parse d ids = ServerError.
Proof.
  intros Hfile Hother Hne Hjson Hjson'.
  assert (getAllMemories Date_parse d = Throw) as Hthrow.
  { unfold getAllMemories. apply array_sort_null.
    - apply elem_of_read_directory. by exists file, (Serialized JNull).
    - rewrite read_directory_entries.
      apply (omap_two _ _ (file, Serialized JNull) (other, Serialized m) JNull m).
      + by apply elem_of_map_to_list.
      + by apply elem_of_map_to_list.
      + congruence.
      + unfold parsed_entry. cbn [fst snd]. by rewrite Hjson.
      + unfold parsed_entry. cbn [fst snd]. by rewrite Hjson'. }
  split; [done|]. split.
  - unfold post_documents_documents, list_memories. by rewrite Hthrow.
  - unfold post_documents_by_ids, find_by_ids. by rewrite Hthrow.
Qed.

Lemma has_id_among (ids : list value) (m : value) :
  Forall (λ i, ∃ s, i = JStr s) ids →
  m ≠ JNull →
  has_id ids m = Normal (bool_decide (id_among ids m)).
Proof.
  intros Hstr Hm. unfold has_id. rewrite get_not_null by done.
  cbn [mbind completion_bind mret completion_ret]. f_equal.
  destruct (field "id" m) as [v|] eqn:Hid.
  - destruct (decide (v ∈ ids)) as [Hin|Hnotin].
    + rewrite (proj2 (includes_string ids v Hstr) Hin).
      symmetry. apply bool_decide_eq_true. by exists v.
    + rewrite bool_decide_eq_false_2.
      * destruct (includes ids v) eqn:Hincludes; [|done].
        by apply includes_string in Hincludes.
      * intros (i & Heq & Hin). rewrite Hid in Heq. by injection Heq as <-.
  - rewrite bool_decide_eq_false_2; [done|].
    intros (i & Heq & _). by rewrite Hid in Heq.
Qed.

(** X19: for ids that are strings and an enumeration that returns
    records, the request by ids answers 200 with exactly the
    enumerated records whose [id] is one of the ids, in the order of
    the enumeration (newest first, not the order of the ids) and as
    they are stored, [memoryEntries] included. *)
Theorem find_by_ids_filters (d : gmap string file_text) (ids : list value)
    (all : list value) :
  getAllMemories Date_parse d = Normal all →
  Forall (λ m, m ≠ JNull) all →
  Forall (λ i, ∃ s, i = JStr s) ids →
  post_documents_by_ids Date_parse d ids
  = Json 200 (JObj {[ "documents" := JArr (filter (id_among ids) all) ]}).
Proof.
  intros Hall Hrecords Hstr. unfold post_documents_by_ids, find_by_ids.
  rewrite Hall. cbn [mbind completion_bind].
  rewrite (array_filter_Normal _ (λ m, bool_decide (id_among ids m))).
  - cbn [mbind completion_bind mret completion_ret try_catch].
    do 4 f_equal. apply list_filter_iff. intros m. apply bool_decide_eq_true.
  - eapply Forall_impl; [exact Hrecords|]. intros m Hm. by apply has_id_among.
Qed.

(** X20: a created record is enumerated: after a successful create in
    a directory whose stored values have a [createdAt] that converts
    (to a time or to NaN), the enumeration returns and the record
    that the create answered is one of its elements. *)
Theorem created_is_enumerated (d : gmap string file_text) (uuid now : string)
    (body : value) (content : string) :
  field "content" body = Some (JStr content) →
  (∀ m, stored d m → ∃ t, created_time Date_parse m = Normal t) →
  ∃ memory all,
    (post_documents d uuid now body).2 = Json 200 memory
    ∧ getAllMemories Date_parse (post_documents d uuid now body).1 = Normal all
    ∧ memory ∈ all.
Proof.
  intros Hc Hconv. rewrite (post_documents_string _ _ _ _ _ Hc). cbn [fst snd].
  set (memory := new_memory _ _ _ _ _).
  set (d' := <[_ := _]> d).
  assert (stored d' memory) as Hstored.
  { exists (uuid +:+ ".json"), (Serialized memory).
    split; [apply lookup_insert_eq|]. split; [apply endsWith_app|done]. }
  destruct (array_sort_returns (compare_created Date_parse)
              (λ m, ∃ t, created_time Date_parse m = Normal t))
    with (l := read_memories d' (readdir d')) as [all Hsort].
  - apply compare_created_returns.
  - apply Forall_forall. intros m (file & text & Hfile & Hjson & Hparse)%elem_of_read_directory.
    destruct (decide (file = uuid +:+ ".json")) as [->|Hne].
    + unfold d' in Hfile. rewrite lookup_insert_eq in Hfile.
      injection Hfile as <-. injection Hparse as <-.
      exists (Date_parse now). reflexivity.
    + unfold d' in Hfile. rewrite lookup_insert_ne in Hfile by done.
      apply Hconv. by exists file, text.
  - exists memory, all. split; [done|]. split; [done|].
    rewrite (array_sort_Permutation _ _ _ Hsort). by apply elem_of_read_directory.
Qed.

End Listing2.

Lemma list_holds_at_most_limit_witness :
  match response_documents
          (post_documents_documents three_dates three_notes
             {| page := Some (-1)%Z; limit := Some 2%Z; containerTags := None |}) with
  | Some docs => (Z.of_nat (length docs) ≤ 2)%Z
  | None => False
  end.
Proof.
  destruct (response_documents _) as [docs|] eqn:Hdocs; [|by vm_compute in Hdocs].
  refine (list_holds_at_most_limit _ _ _ _ Hdocs _). clear Hdocs. cbn. lia.
Defined.

Lemma list_page_zero_limit_zero_witness :
  response_documents
    (post_documents_documents three_dates three_notes
       {| page := Some 0%Z; limit := Some 2%Z; containerTags := None |}) = Some [].
Proof.
  destruct (response_documents _) as [docs|] eqn:Hdocs; [|by vm_compute in Hdocs].
  f_equal. exact (proj1 (list_page_zero_limit_zero _ _ _ _ Hdocs) eq_refl).
Defined.

Lemma list_fails_on_tags_no_array_witness :
  post_documents_documents three_dates
    (post_documents ∅ "a" "2024-01-01T00:00:00.000Z"
       (JObj (list_to_map [("content", JStr "loose"); ("containerTags", JStr "x")]))).1
    {| page := None; limit := None; containerTags := Some [JStr "x"] |}
  = ServerError.
Proof.
  apply (list_fails_on_tags_no_array _ _ _ [loosely_tagged_note] loosely_tagged_note
           (JStr "x") (JStr "x") []).
  - vm_compute. reflexivity.
  - by constructor.
  - reflexivity.
  - reflexivity.
  - discriminate.
  - reflexivity.
Defined.

Lemma null_file_fails_listing_witness :
  getAllMemories three_dates (<["n.json" := Serialized JNull]> three_notes) = Throw.
Proof.
  apply (null_file_fails_listing three_dates _ "n.json" "a.json" first_note
           {| page := None; limit := None; containerTags := None |} []);
    try reflexivity; discriminate.
Defined.

Lemma find_by_ids_filters_witness :
  post_documents_by_ids three_dates three_notes [JStr "a"; JStr "c"]
  = Json 200 (JObj {[ "documents" := JArr [third_note; first_note] ]}).
Proof.
  rewrite (find_by_ids_filters three_dates three_notes [JStr "a"; JStr "c"]
             [third_note; second_note; first_note]).
  - reflexivity.
  - vm_compute. reflexivity.
  - repeat constructor; discriminate.
  - constructor; [by exists "a"|]. constructor; [by exists "c"|]. constructor.
Defined.

Lemma created_is_enumerated_witness :
  ∃ memory all,
    (post_documents three_notes "d" "2024-01-03T00:00:00.000Z" (note "fourth")).2
      = Json 200 memory
    ∧ getAllMemories three_dates
        (post_documents three_notes "d" "2024-01-03T00:00:00.000Z" (note "fourth")).1
      = Normal all
    ∧ memory ∈ all.
Proof.
  apply (created_is_enumerated three_dates _ _ _ _ "fourth"); [reflexivity|].
  intros m Hm%elem_of_read_directory.
  assert (read_memories three_notes (readdir three_notes)
          = [third_note; first_note; second_note]) as Hread
    by (vm_compute; reflexivity).
  rewrite Hread in Hm. clear Hread.
  repeat (apply elem_of_cons in Hm as [->|Hm]); [by eexists..|].
  apply elem_of_nil in Hm. destruct Hm.
Defined.
